(** * Request broker of the wallet: internal Ethereum provider and
      WalletConnect bridge

    A shallow embedding of [InternalEthereumProviderService] and
    [WalletConnectService] (background services of the wallet), and the
    properties of the request broker proved over it.

    JavaScript objects are finite maps from property names to values, an
    [async] method is a function from the service state to an outcome
    (returned value or thrown exception) and the next state, and a promise
    handed to the user interface is an explicit cell with its two settling
    functions. *)

From Stdlib Require Import ZArith Ascii String.
From stdpp Require Import base option list strings pretty gmap fin_maps.

Local Open Scope string_scope.

(** ** JavaScript values and objects *)

#[local] Unset Elimination Schemes.
Inductive JsVal : Type :=
  | JUndefined
  | JNull
  | JBool (b : bool)
  | JNum (n : Z)
  | JStr (s : string)
  | JArr (items : list JsVal)
  | JObj (props : gmap string JsVal).
#[local] Set Elimination Schemes.

Abbreviation JsObject := (gmap string JsVal).

(** [o.k]: a missing property reads as [undefined]. *)
Definition getProp (o : JsObject) (k : string) : JsVal :=
  default JUndefined (o !! k).

(** ["k" in o] *)
Definition hasProp (k : string) (o : JsObject) : bool :=
  bool_decide (is_Some (o !! k)).

(** [{ k: v, ...o }]: the properties of [o] overwrite the earlier [k]. *)
Definition spreadOver (k : string) (v : JsVal) (o : JsObject) : JsObject :=
  o ∪ {[ k := v ]}.

(** [{ ...o, k: v }]: the later [k] overwrites. *)
Definition spreadThen (o : JsObject) (k : string) (v : JsVal) : JsObject :=
  <[ k := v ]> o.

Definition isUndefined (v : JsVal) : bool :=
  match v with JUndefined => true | _ => false end.

(** ** Exceptions and outcomes of asynchronous calls *)

(** EIP-1193 provider errors ([EIP1193_ERROR_CODES] of the shared provider
    bridge package), with their standard numeric codes. *)
Inductive EIP1193ErrorCode : Type :=
  | userRejectedRequest
  | unauthorized
  | unsupportedMethod
  | disconnected
  | chainDisconnected.

Definition errorCode (c : EIP1193ErrorCode) : Z :=
  match c with
  | userRejectedRequest => 4001
  | unauthorized => 4100
  | unsupportedMethod => 4200
  | disconnected => 4900
  | chainDisconnected => 4901
  end.

Definition errorMessage (c : EIP1193ErrorCode) : string :=
  match c with
  | userRejectedRequest => "User rejected the request."
  | unauthorized =>
      "The requested method and/or account has not been authorized by the user."
  | unsupportedMethod => "The Provider does not support the requested method."
  | disconnected => "The Provider is disconnected from all chains."
  | chainDisconnected => "The Provider is not connected to the requested chain."
  end.

Inductive Exception : Type :=
  | EIP1193Error (c : EIP1193ErrorCode)
  | TypeError (what : string)
  | Error (message : string)
  | Rejection (reason : JsVal)
  | CollaboratorFailure (what : string).

(** [new EIP1193Error(c).toJSON()] *)
Definition toJSON (c : EIP1193ErrorCode) : JsVal :=
  JObj (<[ "code" := JNum (errorCode c) ]>
        (<[ "message" := JStr (errorMessage c) ]> ∅)).

Inductive Outcome (A : Type) : Type :=
  | Returned (a : A)
  | Thrown (e : Exception).
Arguments Returned {A} a.
Arguments Thrown {A} e.

(** An [async] method over service state [S]: the state survives a throw. *)
Definition Async (S A : Type) : Type := S → Outcome A * S.

Definition ret {S A} (a : A) : Async S A := fun s => (Returned a, s).
Definition throw {S A} (e : Exception) : Async S A := fun s => (Thrown e, s).
Definition bind {S A B} (m : Async S A) (k : A → Async S B) : Async S B :=
  fun s => match m s with
           | (Returned a, s') => k a s'
           | (Thrown e, s') => (Thrown e, s')
           end.
Definition tryCatch {S A} (m : Async S A) (h : Exception → Async S A)
  : Async S A :=
  fun s => match m s with
           | (Returned a, s') => (Returned a, s')
           | (Thrown e, s') => h e s'
           end.
Definition gets {S A} (f : S → A) : Async S A := fun s => (Returned (f s), s).
Definition modify {S} (f : S → S) : Async S unit :=
  fun s => (Returned tt, f s).

Declare Scope async_scope.
Delimit Scope async_scope with async.
Notation "'await' x ← m ';;' k" := (bind m (fun x => k))
  (at level 100, x name, m at next level, k at level 200,
   right associativity) : async_scope.
Local Open Scope async_scope.

(** ** Networks and the per-origin table *)

Record EVMNetwork : Type := {
  name : string;
  chainID : string;
}.

(** A row of the provider database: the network an origin selected. *)
Record ActiveNetwork : Type := {
  origin : string;
  network : EVMNetwork;
}.

(** The [activeNetwork] table of the provider database, keyed by origin. *)
Abbreviation ActiveNetworkTable := (gmap string ActiveNetwork).

(** [db.getActiveNetworkForOrigin(origin)] *)
Definition getActiveNetworkForOrigin (db : ActiveNetworkTable) (o : string)
  : option ActiveNetwork := db !! o.

(** [db.setActiveChainIdForOrigin(origin, network)]: an upsert of the
    origin's row. *)
Definition setActiveChainIdForOrigin (o : string) (n : EVMNetwork)
    (db : ActiveNetworkTable) : ActiveNetworkTable :=
  <[ o := {| origin := o; network := n |} ]> db.

(** [{ name, chainID }] as it travels inside an event payload. *)
Definition networkToJs (n : EVMNetwork) : JsVal :=
  JObj (<[ "name" := JStr (name n) ]> (<[ "chainID" := JStr (chainID n) ]> ∅)).

(** ** Property access on arbitrary values

    Request parameters are cast ([as ...]) without a run-time check, so the
    service may meet any value where it expects an object. *)

(** [v.k] for the property names the services read ([input], [gas],
    [annotation], [chainId], [address], [hash]): none of them is defined on
    a primitive or an array, and reading a property of [undefined] or [null]
    throws. *)
Definition getField (v : JsVal) (k : string) : Outcome JsVal :=
  match v with
  | JUndefined | JNull =>
      Thrown (TypeError ("Cannot read properties of undefined or null: " ++ k))
  | JObj o => Returned (getProp o k)
  | _ => Returned JUndefined
  end.

(** ["k" in v]: throws on a primitive. *)
Definition inOperator (k : string) (v : JsVal) : Outcome bool :=
  match v with
  | JObj o => Returned (hasProp k o)
  | JArr _ => Returned false
  | _ => Thrown (TypeError ("Cannot use 'in' operator to search for " ++ k))
  end.

Definition indexKey (i : nat) : string := pretty i.

Fixpoint charsOf (s : string) : list JsVal :=
  match s with
  | EmptyString => []
  | String c rest => JStr (String c EmptyString) :: charsOf rest
  end.

Definition indexed (items : list JsVal) : JsObject :=
  list_to_map (imap (fun i v => (indexKey i, v)) items).

(** The own enumerable properties copied by [{ ...v }]. A string is
    spread character by character of the model's byte strings, which are
    the keys of JavaScript for ASCII text only. *)
Definition ownProps (v : JsVal) : JsObject :=
  match v with
  | JObj o => o
  | JArr items => indexed items
  | JStr s => indexed (charsOf s)
  | _ => ∅
  end.

(** [params[i]] *)
Definition param (params : list JsVal) (i : nat) : JsVal :=
  default JUndefined (params !! i).

(** ** Collaborators

    The chain service (gateway), the preference service and the imported
    helpers are not part of the broker; they are interfaces here. *)

Class ChainService (C : Type) : Type := {
  send : string → list JsVal → EVMNetwork → Async C JsVal;
  getActiveNetworks : Async C (list EVMNetwork);
  markNetworkActivity : JsVal → C → C;
  activateNetworkOrThrow : JsVal → Async C EVMNetwork;
  broadcastSignedTransaction : JsVal → Async C unit;
}.

Class PreferenceService (P : Type) : Type := {
  getSelectedAccount : Async P JsVal;
}.

Class Imports : Type := {
  (** [./constants] *)
  TALLY_INTERNAL_ORIGIN : string;
  (** [../../constants] *)
  ETHEREUM : EVMNetwork;
  (** [../../networks] *)
  toHexChainID : JsVal → string;
  (** [../../lib/utils] *)
  decodeJSON : JsVal → Outcome JsVal;
  JSON_parse : JsVal → Outcome JsVal;
  (** [../chain/utils] *)
  transactionRequestFromEthersTransactionRequest : JsObject → Outcome JsObject;
  (** [serializeEthersTransaction(ethersTransactionFromSignedTransaction(t),
      { r, s, v })] *)
  serializeSignedTransaction : JsVal → Outcome JsVal;
  (** [../../utils/signing] *)
  parseSigningData : string → Outcome JsObject;
  (** [hexlify(toUtf8Bytes(input))] *)
  hexlifyUtf8 : string → string;
}.

(** The fields that the parameter type of
    [transactionRequestFromEthersTransactionRequest] declares (the ethers
    [TransactionRequest]). *)
Definition ethersTransactionRequestFields : list string :=
  [ "to"; "from"; "nonce"; "gasLimit"; "gasPrice"; "data"; "value";
    "chainId"; "type"; "accessList"; "maxPriorityFeePerGas"; "maxFeePerGas";
    "customData"; "ccipReadEnabled" ].

Definition declaredOnly (o : JsObject) : JsObject :=
  filter (fun kv => kv.1 ∈ ethersTransactionRequestFields) o.

(** A converter respects its parameter type when it reads nothing but the
    declared fields of its argument. *)
Definition ReadsDeclaredFieldsOnly `{Imports} : Prop :=
  ∀ o, transactionRequestFromEthersTransactionRequest o
       = transactionRequestFromEthersTransactionRequest (declaredOnly o).

(** ** The service state *)

Record Service (C P : Type) : Type := mkService {
  db : ActiveNetworkTable;
  chainService : C;
  preferenceService : P;
  (** [private activeNetwork = ETHEREUM]: initialised, never read. *)
  activeNetwork : EVMNetwork;
}.
Arguments mkService {C P}.
Arguments db {C P}.
Arguments chainService {C P}.
Arguments preferenceService {C P}.
Arguments activeNetwork {C P}.

Definition setDb {C P} (f : ActiveNetworkTable → ActiveNetworkTable)
    (s : Service C P) : Service C P :=
  mkService (f (db s)) (chainService s) (preferenceService s) (activeNetwork s).

Definition setChain {C P} (f : C → C) (s : Service C P) : Service C P :=
  mkService (db s) (f (chainService s)) (preferenceService s) (activeNetwork s).

(** Run a chain-service call inside the service. *)
Definition onChain {C P A} (m : Async C A) : Async (Service C P) A :=
  fun s => let '(r, c) := m (chainService s) in (r, setChain (fun _ => c) s).

Definition onPreferences {C P A} (m : Async P A) : Async (Service C P) A :=
  fun s => let '(r, p) := m (preferenceService s) in
           (r, mkService (db s) (chainService s) p (activeNetwork s)).

Definition liftOutcome {S A} (r : Outcome A) : Async S A := fun s => (r, s).

(** ** Pending approvals

    [new Promise((resolve, reject) => emitter.emit(name, { payload,
    resolver: resolve, rejecter: reject }))]: the emitted event carries the
    two settling functions of a fresh promise. *)

Inductive PromiseState : Type :=
  | Pending
  | Fulfilled (value : JsVal)
  | Rejected (reason : JsVal).

(** The resolving functions of a promise act on a pending promise only. *)
Definition resolve (value : JsVal) (p : PromiseState) : PromiseState :=
  match p with Pending => Fulfilled value | _ => p end.

Definition reject (reason : JsVal) (p : PromiseState) : PromiseState :=
  match p with Pending => Rejected reason | _ => p end.

(** What the user interface may do with the handles of an event:
    [resolver(result)] or [rejecter()]. Results are plain data (a signed
    transaction, a signature), never another promise. *)
Inductive Decision : Type :=
  | callResolver (result : JsVal)
  | callRejecter.

Definition invoke (p : PromiseState) (d : Decision) : PromiseState :=
  match d with
  | callResolver result => resolve result p
  | callRejecter => reject JUndefined p
  end.

Definition isSettled (p : PromiseState) : bool :=
  match p with Pending => false | _ => true end.

Inductive EventName : Type :=
  | transactionSignatureRequest
  | signTypedDataRequest
  | signDataRequest.

Record DAppRequestEvent : Type := {
  event : EventName;
  payload : JsObject;
}.

(** The [.then(...)] attached to the promise of a signing request. *)
Inductive Then : Type :=
  | ThenBroadcast   (* eth_sendTransaction *)
  | ThenSerialize   (* eth_signTransaction *)
  | ThenResult.     (* signTypedData, signData *)

(** What [routeSafeRPCRequest] hands back: a value, or a promise that waits
    for the user interface. *)
Inductive Routed : Type :=
  | Value (v : JsVal)
  | AwaitingUser (request : DAppRequestEvent) (next : Then).

(** [/^0x[0-9A-Fa-f]*$/] *)
Definition isHexDigit (c : ascii) : bool :=
  let n := nat_of_ascii c in
  ((48 <=? n)%nat && (n <=? 57)%nat) || ((65 <=? n)%nat && (n <=? 70)%nat)
  || ((97 <=? n)%nat && (n <=? 102)%nat).

Fixpoint allHexDigits (s : string) : bool :=
  match s with
  | EmptyString => true
  | String c rest => isHexDigit c && allHexDigits rest
  end.

Definition matchesHexString (s : string) : bool :=
  match s with
  | String "0"%char (String "x"%char rest) => allHexDigits rest
  | _ => false
  end.

Definition elem (x : string) (l : list string) : bool :=
  existsb (String.eqb x) l.

Definition signTypedDataMethods : list string :=
  [ "eth_signTypedData"; "eth_signTypedData_v1"; "eth_signTypedData_v3";
    "eth_signTypedData_v4" ].

Definition passThroughMethods : list string :=
  [ "eth_blockNumber"; "eth_call"; "eth_estimateGas"; "eth_feeHistory";
    "eth_gasPrice"; "eth_getBalance"; "eth_getBlockByHash";
    "eth_getBlockByNumber"; "eth_getBlockTransactionCountByHash";
    "eth_getBlockTransactionCountByNumber"; "eth_getCode";
    "eth_getFilterChanges"; "eth_getFilterLogs"; "eth_getLogs";
    "eth_getProof"; "eth_getStorageAt";
    "eth_getTransactionByBlockHashAndIndex";
    "eth_getTransactionByBlockNumberAndIndex"; "eth_getTransactionByHash";
    "eth_getTransactionCount"; "eth_getTransactionReceipt";
    "eth_getUncleByBlockHashAndIndex"; "eth_getUncleByBlockNumberAndIndex";
    "eth_getUncleCountByBlockHash"; "eth_getUncleCountByBlockNumber";
    "eth_maxPriorityFeePerGas"; "eth_newBlockFilter"; "eth_newFilter";
    "eth_newPendingTransactionFilter"; "eth_protocolVersion";
    "eth_sendRawTransaction"; "eth_subscribe"; "eth_syncing";
    "eth_uninstallFilter"; "eth_unsubscribe"; "net_listening"; "net_version";
    "web3_clientVersion"; "web3_sha3" ].

Definition chainSwitchMethods : list string :=
  [ "wallet_addEthereumChain"; "wallet_switchEthereumChain" ].

(** ** InternalEthereumProviderService *)

Section InternalEthereumProviderService.
Context {C P : Type} `{!ChainService C} `{!PreferenceService P} `{!Imports}.

#[local] Abbreviation Svc := (Service C P).

Definition getInternalActiveChain : Async Svc (option ActiveNetwork) :=
  gets (fun s => getActiveNetworkForOrigin (db s) TALLY_INTERNAL_ORIGIN).

(** The internal row is read with [as Promise<ActiveNetwork>] and
    dereferenced at once. *)
Definition getActiveOrDefaultNetwork (origin : string)
  : Async Svc EVMNetwork :=
  await activeNetwork ←
    gets (fun s => getActiveNetworkForOrigin (db s) origin) ;;
  match activeNetwork with
  | None =>
      await internal ← getInternalActiveChain ;;
      match internal with
      | Some row => ret (network row)
      | None =>
          throw (TypeError
                   "Cannot read properties of undefined (reading 'network')")
      end
  | Some row => ret (network row)
  end.

(** The annotation of a transaction request: decoded for the internal
    origin only. *)
Definition annotationOf (transactionRequest : JsVal) (origin : string)
  : Outcome JsVal :=
  if String.eqb origin TALLY_INTERNAL_ORIGIN then
    match inOperator "annotation" transactionRequest with
    | Thrown e => Thrown e
    | Returned false => Returned JUndefined
    | Returned true =>
        match getField transactionRequest "annotation" with
        | Thrown e => Thrown e
        | Returned JUndefined => Returned JUndefined
        | Returned a => decodeJSON a
        end
    end
  else Returned JUndefined.

(** [{ data: transactionRequest.input, ...transactionRequest,
       gasLimit: transactionRequest.gas }] *)
Definition ethersRequestOf (transactionRequest : JsVal)
  : Outcome JsObject :=
  match getField transactionRequest "input" with
  | Thrown e => Thrown e
  | Returned input =>
      match getField transactionRequest "gas" with
      | Thrown e => Thrown e
      | Returned gas =>
          Returned
            (spreadThen (spreadOver "data" input (ownProps transactionRequest))
                        "gasLimit" gas)
      end
  end.

Definition signTransaction (transactionRequest : JsVal) (origin : string)
  : Async Svc DAppRequestEvent :=
  await annotation ← liftOutcome (annotationOf transactionRequest origin) ;;
  await ethersRequest ← liftOutcome (ethersRequestOf transactionRequest) ;;
  await converted ←
    liftOutcome
      (transactionRequestFromEthersTransactionRequest ethersRequest) ;;
  let from := getProp converted "from" in
  let convertedRequest := delete "from" converted in
  if isUndefined from then
    throw (Error "Transactions must have a from address for signing.")
  else
    await activeNetwork ← getActiveOrDefaultNetwork origin ;;
    ret {| event := transactionSignatureRequest;
           payload :=
             spreadThen
               (spreadThen (spreadThen convertedRequest "from" from)
                           "network" (networkToJs activeNetwork))
               "annotation" annotation |}.

Definition getActiveNetworkByChainId (chainId : JsVal)
  : Async Svc (option EVMNetwork) :=
  await activeNetworks ← onChain getActiveNetworks ;;
  match
    List.find
      (fun n => String.eqb (toHexChainID (JStr (chainID n)))
                           (toHexChainID chainId))
      activeNetworks
  with
  | Some found =>
      await _ ←
        modify (setChain (markNetworkActivity (JStr (chainID found)))) ;;
      ret (Some found)
  | None =>
      tryCatch
        (await activated ← onChain (activateNetworkOrThrow chainId) ;;
         await _ ← modify (setChain (markNetworkActivity chainId)) ;;
         ret (Some activated))
        (fun _ => ret None)
  end.

Definition signTypedData (params : JsObject) : Async Svc DAppRequestEvent :=
  ret {| event := signTypedDataRequest; payload := params |}.

Definition signData (input account : JsVal) (origin : string)
  : Async Svc DAppRequestEvent :=
  match input with
  | JStr text =>
      let hexInput :=
        if matchesHexString text then text else hexlifyUtf8 text in
      await typeAndData ← liftOutcome (parseSigningData text) ;;
      await activeNetwork ← getActiveOrDefaultNetwork origin ;;
      ret {| event := signDataRequest;
             payload :=
               typeAndData ∪
               (<[ "rawSigningData" := JStr hexInput ]>
                  (<[ "account" :=
                        JObj (<[ "address" := account ]>
                              (<[ "network" := networkToJs activeNetwork ]>
                                 ∅)) ]>
                     ∅)) |}
  | _ => throw (TypeError "input.match is not a function")
  end.

Definition routeSafeRPCRequest (method : string) (params : list JsVal)
    (origin : string) : Async Svc Routed :=
  if elem method signTypedDataMethods then
    await activeNetwork ← getActiveOrDefaultNetwork origin ;;
    await typedData ← liftOutcome (JSON_parse (param params 1)) ;;
    await request ←
      signTypedData
        (<[ "account" :=
              JObj (<[ "address" := param params 0 ]>
                    (<[ "network" := networkToJs activeNetwork ]> ∅)) ]>
           (<[ "typedData" := typedData ]> ∅)) ;;
    ret (AwaitingUser request ThenResult)
  else if String.eqb method "eth_chainId" then
    await activeNetwork ← getActiveOrDefaultNetwork origin ;;
    ret (Value (JStr (toHexChainID (JStr (chainID activeNetwork)))))
  else if elem method passThroughMethods then
    await activeNetwork ← getActiveOrDefaultNetwork origin ;;
    await result ← onChain (send method params activeNetwork) ;;
    ret (Value result)
  else if String.eqb method "eth_accounts" then
    await selected ← onPreferences getSelectedAccount ;;
    await address ← liftOutcome (getField selected "address") ;;
    ret (Value (JArr [address]))
  else if String.eqb method "eth_sendTransaction" then
    await request ←
      signTransaction
        (JObj (spreadThen (ownProps (param params 0)) "nonce" JUndefined))
        origin ;;
    ret (AwaitingUser request ThenBroadcast)
  else if String.eqb method "eth_signTransaction" then
    await request ← signTransaction (param params 0) origin ;;
    ret (AwaitingUser request ThenSerialize)
  else if String.eqb method "eth_sign" then
    await request ← signData (param params 1) (param params 0) origin ;;
    ret (AwaitingUser request ThenResult)
  else if String.eqb method "personal_sign" then
    await request ← signData (param params 0) (param params 1) origin ;;
    ret (AwaitingUser request ThenResult)
  else if elem method chainSwitchMethods then
    await newChainId ← liftOutcome (getField (param params 0) "chainId") ;;
    await supportedNetwork ← getActiveNetworkByChainId newChainId ;;
    match supportedNetwork with
    | Some supported =>
        await _ ←
          modify (setDb (setActiveChainIdForOrigin origin supported)) ;;
        ret (Value JNull)
    | None => throw (EIP1193Error chainDisconnected)
    end
  else
    throw (EIP1193Error unsupportedMethod).

(** The rest of the promise chain once the resolver has been called with
    [signed]. *)
Definition andThen (next : Then) (signed : JsVal) : Async Svc JsVal :=
  match next with
  | ThenBroadcast =>
      await _ ← onChain (broadcastSignedTransaction signed) ;;
      liftOutcome (getField signed "hash")
  | ThenSerialize => liftOutcome (serializeSignedTransaction signed)
  | ThenResult => ret signed
  end.

(** What the caller's [await] observes for a promise in state [p]: nothing
    while it is pending. *)
Definition awaited (next : Then) (p : PromiseState)
  : option (Async Svc JsVal) :=
  match p with
  | Pending => None
  | Fulfilled signed => Some (andThen next signed)
  | Rejected reason => Some (throw (Rejection reason))
  end.

(** The result of a routed request after the user interface has made the
    calls [ui], in order, on the handles of the emitted event. *)
Definition observed (r : Routed) (ui : list Decision)
  : option (Async Svc JsVal) :=
  match r with
  | Value v => Some (ret v)
  | AwaitingUser _ next => awaited next (fold_left invoke ui Pending)
  end.

(** *** The handler of the internal provider port *)

Record PortResponse : Type := {
  responseId : JsVal;
  result : JsVal;
}.

(** [await this.routeSafeRPCRequest(method, params, origin)] as the caller
    sees it after the user interface has made the calls [ui]: [None] while
    the promise stays pending. *)
Definition awaitRoute (method : string) (params : list JsVal)
    (origin : string) (ui : list Decision)
  : Svc → option (Outcome JsVal) * Svc :=
  fun s =>
    match routeSafeRPCRequest method params origin s with
    | (Thrown e, s1) => (Some (Thrown e), s1)
    | (Returned routed, s1) =>
        match observed routed ui with
        | None => (None, s1)
        | Some rest => let '(r, s2) := rest s1 in (Some r, s2)
        end
    end.

(** [internalProviderPort.emitter.on("message", async (event) => ...)]:
    the responses posted for one message. *)
Definition onInternalMessage (eventId : JsVal) (method : string)
    (params : list JsVal) (ui : list Decision)
  : Svc → list PortResponse * Svc :=
  fun s =>
    match awaitRoute method params TALLY_INTERNAL_ORIGIN ui s with
    | (None, s') => ([], s')
    | (Some (Returned v), s') =>
        ([{| responseId := eventId; result := v |}], s')
    | (Some (Thrown _), s') =>
        ([{| responseId := eventId; result := toJSON userRejectedRequest |}],
         s')
    end.
End InternalEthereumProviderService.

(** ** WalletConnectService (protocol version 2) *)

Record ProposalNamespace : Type := {
  chains : list string;
  methods : list string;
  events : list string;
}.

Record SessionNamespace : Type := {
  accounts : list string;
  sessionMethods : list string;
  sessionEvents : list string;
}.

Record Relay : Type := { protocol : string }.

(** [SignClientTypes.EventArguments["session_proposal"]]: [id] and the
    parts of [params] that the service reads. *)
Record SessionProposal : Type := {
  proposalId : Z;
  requiredNamespaces : gmap string ProposalNamespace;
  relays : list Relay;
  proposerUrl : string;   (* params.proposer.metadata.url *)
}.

(** The calls the service makes on the sign client. *)
Inductive SignClientCall : Type :=
  | approveCall (proposal : Z) (relayProtocol : string)
      (namespaces : gmap string SessionNamespace)
  | acknowledgedCall (proposal : Z)
  | rejectCall (proposal : Z) (reason : string).

Definition isApproval (c : SignClientCall) : bool :=
  match c with
  | approveCall _ _ _ | acknowledgedCall _ => true
  | rejectCall _ _ => false
  end.

(** The state of the bridge: the calls made so far on [signClient] (absent
    while the client is [undefined]) and [senderUrl]. *)
Record WalletConnect : Type := mkWalletConnect {
  signClient : option (list SignClientCall);
  senderUrl : string;
}.

Definition callsOf (w : WalletConnect) : list SignClientCall :=
  default [] (signClient w).

(** The approval and acknowledgement calls made so far. *)
Definition approvals (w : WalletConnect) : list SignClientCall :=
  List.filter isApproval (callsOf w).

(** A result on the proposal port that the callback acts on: the selected
    accounts (a non-empty array) or an EIP-1193 error. *)
Definition isDecision (isEIP1193Error : JsVal → bool) (messageResult : JsVal)
  : bool :=
  match messageResult with
  | JArr (_ :: _) => true
  | _ => isEIP1193Error messageResult
  end.

Section WalletConnectService.
(** Whether the relay lets a call of the sign client succeed. *)
Variable relay : SignClientCall → Outcome unit.
(** [`${acc}`] and [isEIP1193Error]. *)
Variable templateText : JsVal → string.
Variable isEIP1193Error : JsVal → bool.

(** A call on a client that is there. *)
Definition onSignClient (c : SignClientCall) : Async WalletConnect unit :=
  fun w => (relay c,
            mkWalletConnect (Some (callsOf w ++ [c])%list) (senderUrl w)).

(** [await this.signClient?.reject({ id, reason })] *)
Definition rejectProposal (proposal : Z) : Async WalletConnect unit :=
  fun w =>
    match signClient w with
    | Some _ => onSignClient (rejectCall proposal "USER_REJECTED_METHODS") w
    | None => (Returned tt, w)
    end.

Definition ethNamespaceKey : string := "eip155".

Definition acknowledgeProposal (proposal : SessionProposal)
    (selectedAccounts : list JsVal) : Async WalletConnect unit :=
  match requiredNamespaces proposal !! ethNamespaceKey with
  | None => rejectProposal (proposalId proposal)
  | Some ethNamespace =>
      let accounts :=
        flat_map
          (fun chain =>
             map (fun acc => chain ++ ":" ++ templateText acc)
                 selectedAccounts)
          (chains ethNamespace) in
      let namespaces : gmap string SessionNamespace :=
        <[ ethNamespaceKey :=
             {| accounts := accounts;
                sessionMethods := methods ethNamespace;
                sessionEvents := events ethNamespace |} ]> ∅ in
      fun w =>
        match signClient w, relays proposal with
        | Some _, first :: _ =>
            (await _ ←
               onSignClient
                 (approveCall (proposalId proposal) (protocol first)
                              namespaces) ;;
             onSignClient (acknowledgedCall (proposalId proposal))) w
        | _, _ => rejectProposal (proposalId proposal) w
        end
  end.

(** The callback of the port opened by [sessionProposalListener] for a
    version 2 proposal, run on [message.result]. *)
Definition onProposalMessage (proposal : SessionProposal)
    (messageResult : JsVal) : Async WalletConnect unit :=
  match messageResult with
  | JArr (first :: rest) => acknowledgeProposal proposal (first :: rest)
  | _ =>
      if isEIP1193Error messageResult
      then rejectProposal (proposalId proposal)
      else ret tt
  end.

(** [sessionProposalListener(false, proposal)], given the results that
    the provider bridge posts to the port: an exception in the callback
    stays in the callback. *)
Definition sessionProposalListener (proposal : SessionProposal)
    (messages : list JsVal) : WalletConnect → WalletConnect :=
  fun w =>
    let w1 := mkWalletConnect (signClient w) (proposerUrl proposal) in
    if String.eqb (senderUrl w1) EmptyString then w1
    else fold_left (fun acc m => (onProposalMessage proposal m acc).2)
                   messages w1.
End WalletConnectService.

(** ** A concrete set of collaborators

    Small instances of the interfaces, on which the services run by
    computation. *)

Module Sample.
Definition POLYGON : EVMNetwork := {| name := "Polygon"; chainID := "137" |}.
Definition MAINNET : EVMNetwork := {| name := "Ethereum"; chainID := "1" |}.

(** Decimal chain ids of the two sample networks, hex strings as they
    are. *)
Definition hexChainID (v : JsVal) : string :=
  match v with
  | JStr s =>
      if String.eqb s "1" then "0x1"
      else if String.eqb s "137" then "0x89"
      else s
  | _ => EmptyString
  end.

(** A sample converter. [transactionRequestFromEthersTransactionRequest]
    of [../chain/utils] stays a parameter of the model; this instance
    keeps the declared fields of its argument and nothing else. *)
Definition keepDeclared (o : JsObject) : Outcome JsObject :=
  Returned (declaredOnly o).

#[global] Instance imports : Imports := {|
  TALLY_INTERNAL_ORIGIN := "@tally-internal";
  ETHEREUM := MAINNET;
  toHexChainID := hexChainID;
  decodeJSON := Returned;
  JSON_parse := Returned;
  transactionRequestFromEthersTransactionRequest := keepDeclared;
  serializeSignedTransaction := fun _ => Returned (JStr "0xf86c");
  parseSigningData := fun _ => Returned ∅;
  hexlifyUtf8 := fun s => s;
|}.

(** A gateway whose state is the list of active networks; it can activate
    Polygon and nothing else. *)
#[global] Instance chain : ChainService (list EVMNetwork) := {|
  send := fun _ _ _ => ret JNull;
  getActiveNetworks := gets (fun nets => nets);
  markNetworkActivity := fun _ nets => nets;
  activateNetworkOrThrow := fun chainId nets =>
    if String.eqb (hexChainID chainId) "0x89"
    then (Returned POLYGON, (nets ++ [POLYGON])%list)
    else (Thrown (CollaboratorFailure "unsupported network"), nets);
  broadcastSignedTransaction := fun _ => ret tt;
|}.

(** A preference service whose state is the value that
    [getSelectedAccount] resolves to. *)
#[global] Instance preferences : PreferenceService JsVal := {|
  getSelectedAccount := gets (fun selected => selected);
|}.

Definition account (address : string) : JsVal :=
  JObj (<[ "address" := JStr address ]> ∅).

Definition row (o : string) (n : EVMNetwork) : ActiveNetwork :=
  {| origin := o; network := n |}.

Definition dapp : string := "https://dapp.example".
Definition otherDapp : string := "https://other.example".

(** The internal origin has selected the main network. *)
Definition started (selected : JsVal) : Service (list EVMNetwork) JsVal :=
  mkService (<[ "@tally-internal" := row "@tally-internal" MAINNET ]> ∅)
            [MAINNET; POLYGON] selected MAINNET.

(** A gateway that cannot be reached: every call fails. *)
#[global] Instance offline : ChainService unit := {|
  send := fun _ _ _ => throw (CollaboratorFailure "gateway offline");
  getActiveNetworks := throw (CollaboratorFailure "gateway offline");
  markNetworkActivity := fun _ c => c;
  activateNetworkOrThrow := fun _ =>
    throw (CollaboratorFailure "gateway offline");
  broadcastSignedTransaction := fun _ =>
    throw (CollaboratorFailure "gateway offline");
|}.

(** The started service on the unreachable gateway. *)
Definition unreachable : Service unit JsVal :=
  mkService (<[ "@tally-internal" := row "@tally-internal" MAINNET ]> ∅)
            tt JNull MAINNET.

Definition transfer : JsObject :=
  <[ "from" := JStr "0xa11ce" ]>
    (<[ "to" := JStr "0xb0b" ]>
       (<[ "gas" := JStr "0x5208" ]>
          (<[ "data" := JStr "0x01" ]>
             (<[ "input" := JStr "0xabc" ]>
                (<[ "nonce" := JStr "0x7" ]> ∅))))).

Definition relayAccepts (c : SignClientCall) : Outcome unit := Returned tt.

Definition text (v : JsVal) : string :=
  match v with JStr s => s | _ => EmptyString end.

Definition solanaOnly : SessionProposal :=
  {| proposalId := 7;
     requiredNamespaces :=
       <[ "solana" := {| chains := ["solana:mainnet"];
                         methods := ["solana_signTransaction"];
                         events := [] |} ]> ∅;
     relays := [ {| protocol := "irn" |} ];
     proposerUrl := "https://peer.example" |}.

Definition connected : WalletConnect :=
  mkWalletConnect (Some []) EmptyString.
End Sample.

(** ** Method classes named in the statements *)

Definition transactionMethods : list string :=
  [ "eth_sendTransaction"; "eth_signTransaction" ].

Definition signingMethods : list string :=
  (signTypedDataMethods ++ transactionMethods
   ++ [ "eth_sign"; "personal_sign" ])%list.

(** The converted request that [signTransaction] destructures: the
    normalised request passed through the converter. *)
Definition convertedOf `{!Imports} (transactionRequest : JsVal)
  : Outcome JsObject :=
  match ethersRequestOf transactionRequest with
  | Returned ethersRequest =>
      transactionRequestFromEthersTransactionRequest ethersRequest
  | Thrown e => Thrown e
  end.

(** The payload of the event emitted by a routed request, if any. *)
Definition payloadOf (r : Outcome Routed) : option JsObject :=
  match r with
  | Returned (AwaitingUser request _) => Some (payload request)
  | _ => None
  end.

(** ** The classes of the method switch *)

(** Every method name that has a case with a body of its own. *)
Definition supportedMethods : list string :=
  (signTypedDataMethods ++ [ "eth_chainId" ] ++ passThroughMethods
   ++ [ "eth_accounts" ] ++ transactionMethods
   ++ [ "eth_sign"; "personal_sign" ] ++ chainSwitchMethods)%list.

(** The case labels that share the body of [default]. *)
Definition listedUnsupportedMethods : list string :=
  [ "metamask_getProviderState"; "metamask_sendDomainMetadata";
    "wallet_requestPermissions"; "wallet_watchAsset"; "estimateGas";
    "eth_coinbase"; "eth_decrypt"; "eth_getEncryptionPublicKey";
    "eth_getWork"; "eth_hashrate"; "eth_mining"; "eth_submitHashrate";
    "eth_submitWork"; "metamask_accountsChanged"; "metamask_chainChanged";
    "metamask_logWeb3ShimUsage"; "metamask_unlockStateChanged";
    "metamask_watchAsset"; "net_peerCount"; "wallet_accountsChanged";
    "wallet_registerOnboarding" ].

(** An asynchronous call that leaves the service state as it found it. *)
Definition Pure {S A : Type} (m : Async S A) : Prop := ∀ s, (m s).2 = s.

(** An asynchronous call that leaves the per-origin table as it found it. *)
Definition KeepsTable {C P A : Type} (m : Async (Service C P) A) : Prop :=
  ∀ s, db (m s).2 = db s.

(** ** WalletConnectService: connections and session requests *)

(** [TranslatedRequestParams] *)
Record TranslatedRequestParams : Type := {
  requestId : JsVal;
  topic : string;
  requestMethod : string;
  requestParams : list JsVal;
}.

(** The calls that the connection and request handlers make: on the legacy
    helper, on the version 2 sign client and on the provider bridge. *)
Inductive BridgeCall : Type :=
  | createLegacySignClientCall (uri : string)
  | pairCall (uri : string)
  | respondCall (topic : string) (response : JsVal)
  | postLegacyApprovalResponseCall (request : TranslatedRequestParams)
      (result : JsVal)
  | postLegacyRejectionResponseCall (request : TranslatedRequestParams)
  | onMessageListenerCall (sender : string) (id : string)
      (request : TranslatedRequestParams).

Definition isRespond (c : BridgeCall) : bool :=
  match c with respondCall _ _ => true | _ => false end.

Definition isLegacyPost (c : BridgeCall) : bool :=
  match c with
  | postLegacyApprovalResponseCall _ _ | postLegacyRejectionResponseCall _ =>
      true
  | _ => false
  end.

(** The bridge with the calls of its connection and request handlers. *)
Record Bridge : Type := mkBridge {
  walletConnect : WalletConnect;
  outbox : list BridgeCall;
}.

Section WalletConnectRequests.
(** [SignClientTypes.EventArguments["session_request"]] and
    [LegacyEventData]. *)
Variables SessionRequest LegacyEventData : Type.
(** [parseUri(uri).version] *)
Variable parseUri : string → Outcome JsVal.
(** [./eip155-request-utils] and [./legacy-sign-client-helper] *)
Variable processRequestParams : SessionRequest → option TranslatedRequestParams.
Variable processLegacyRequestParams :
  LegacyEventData → option TranslatedRequestParams.
Variable approveEIP155Request : TranslatedRequestParams → JsVal → JsVal.
Variable rejectEIP155Request : TranslatedRequestParams → JsVal.
Variable isEIP1193Error : JsVal → bool.
(** Whether a call goes through. *)
Variable answer : BridgeCall → Outcome unit.

Definition makeCall (c : BridgeCall) : Async Bridge unit :=
  fun b => (answer c, mkBridge (walletConnect b) (outbox b ++ [c])%list).

(** The [try] block of [performConnection] catches everything. *)
Definition performConnection (uri : string) : Bridge → Bridge :=
  fun b =>
    match signClient (walletConnect b) with
    | None => b
    | Some _ =>
        (tryCatch
           (await version ← liftOutcome (parseUri uri) ;;
            match version with
            | JNum 1 => makeCall (createLegacySignClientCall uri)
            | JNum 2 => makeCall (pairCall uri)
            | _ => ret tt
            end)
           (fun _ => ret tt) b).2
    end.

(** [await this.signClient?.respond({ topic, response })] *)
Definition respond (topic : string) (response : JsVal) : Async Bridge unit :=
  fun b =>
    match signClient (walletConnect b) with
    | Some _ => makeCall (respondCall topic response) b
    | None => (Returned tt, b)
    end.

Definition postApprovalResponse (event : TranslatedRequestParams)
    (payload : JsVal) : Async Bridge unit :=
  respond (topic event) (approveEIP155Request event payload).

Definition postRejectionResponse (event : TranslatedRequestParams)
  : Async Bridge unit :=
  respond (topic event) (rejectEIP155Request event).

(** The [request] of [sessionRequestListener]. *)
Definition translateRequest (isLegacy : bool) (event : option SessionRequest)
    (legacyEvent : option LegacyEventData) : option TranslatedRequestParams :=
  match isLegacy, legacyEvent with
  | true, Some legacy => processLegacyRequestParams legacy
  | _, _ =>
      match event with
      | Some e => processRequestParams e
      | None => None
      end
  end.

(** The callback of the port opened by [sessionRequestListener], run on
    [message.result]. *)
Definition onRequestMessage (isLegacy : bool)
    (request : option TranslatedRequestParams) (messageResult : JsVal)
  : Async Bridge unit :=
  match request with
  | None => ret tt
  | Some r =>
      if isEIP1193Error messageResult then
        if isLegacy then makeCall (postLegacyRejectionResponseCall r)
        else postRejectionResponse r
      else if isLegacy
      then makeCall (postLegacyApprovalResponseCall r messageResult)
      else postApprovalResponse r messageResult
  end.

(** [sessionRequestListener(isLegacy, event, legacyEvent)], given the
    results that the provider bridge posts to the port. *)
Definition sessionRequestListener (isLegacy : bool)
    (event : option SessionRequest) (legacyEvent : option LegacyEventData)
    (messages : list JsVal) : Bridge → Bridge :=
  fun b =>
    let request := translateRequest isLegacy event legacyEvent in
    match request with
    | None => b
    | Some r =>
        let forwarded :=
          (makeCall
             (onMessageListenerCall (senderUrl (walletConnect b)) "1400" r)
             b).2 in
        fold_left (fun acc m => (onRequestMessage isLegacy request m acc).2)
                  messages forwarded
    end.
(** The calls that answer one result on the request port: through the
    legacy helper for a legacy request, else by a respond call on the topic
    of the request while the sign client is there. *)
Definition answersTo (isLegacy : bool) (w : WalletConnect)
    (r : TranslatedRequestParams) (messageResult : JsVal)
  : list BridgeCall :=
  if isLegacy then
    [ if isEIP1193Error messageResult
      then postLegacyRejectionResponseCall r
      else postLegacyApprovalResponseCall r messageResult ]
  else
    match signClient w with
    | Some _ =>
        [ respondCall (topic r)
            (if isEIP1193Error messageResult
             then rejectEIP155Request r
             else approveEIP155Request r messageResult) ]
    | None => []
    end.
End WalletConnectRequests.

Arguments translateRequest {SessionRequest LegacyEventData}.
Arguments sessionRequestListener {SessionRequest LegacyEventData}.

(** Sample helpers for the connection and request handlers. *)
Module SampleBridge.
(** The version is the last character of the sample URIs. *)
Definition version (uri : string) : Outcome JsVal :=
  if String.eqb uri "wc:7f6e@1?bridge=x" then Returned (JNum 1)
  else if String.eqb uri "wc:c9e6@2?relay-protocol=irn" then Returned (JNum 2)
  else if String.eqb uri "wc:0000@3" then Returned (JNum 3)
  else Thrown (Error "Invalid WalletConnect URI").

Definition translated : TranslatedRequestParams :=
  {| requestId := JNum 42;
     topic := "a1b2";
     requestMethod := "personal_sign";
     requestParams := [JStr "0x1234"; JStr "0xa11ce"] |}.

(** A sample request event is its own translation, when it has one. *)
Definition translation (e : option TranslatedRequestParams)
  : option TranslatedRequestParams := e.

Definition approval (r : TranslatedRequestParams) (payload : JsVal) : JsVal :=
  JObj (<[ "id" := requestId r ]> (<[ "result" := payload ]> ∅)).

Definition rejection (r : TranslatedRequestParams) : JsVal :=
  JObj (<[ "id" := requestId r ]>
        (<[ "error" := toJSON userRejectedRequest ]> ∅)).

Definition isError (v : JsVal) : bool :=
  match v with
  | JObj o => hasProp "code" o
  | _ => false
  end.

Definition accepts (c : BridgeCall) : Outcome unit := Returned tt.

Definition idle : Bridge :=
  mkBridge (mkWalletConnect (Some []) "https://peer.example") [].

Definition evmProposal : SessionProposal :=
  {| proposalId := 9;
     requiredNamespaces :=
       <[ "eip155" := {| chains := ["eip155:1"; "eip155:137"];
                         methods := ["eth_sendTransaction"; "personal_sign"];
                         events := ["chainChanged"] |} ]> ∅;
     relays := [ {| protocol := "irn" |} ];
     proposerUrl := "https://peer.example" |}.
End SampleBridge.

(** * Properties *)

(** Case analysis on membership of a method name in a list of names. *)
Ltac each_method H :=
  repeat (apply elem_of_cons in H as [-> | H]);
  [.. | by apply elem_of_nil in H].

(** ** The declared fields of a converter argument *)

Lemma declaredOnly_lookup (o : JsObject) (k : string) :
  declaredOnly o !! k
  = if decide (k ∈ ethersTransactionRequestFields) then o !! k else None.
Proof.
  unfold declaredOnly. rewrite map_lookup_filter.
  destruct (o !! k) as [v|]; simpl; [|by case_decide].
  case_guard; simpl; try case_decide; done.
Qed.

Lemma declaredOnly_agree (o1 o2 : JsObject) :
  (∀ k, k ∈ ethersTransactionRequestFields → o1 !! k = o2 !! k) →
  declaredOnly o1 = declaredOnly o2.
Proof.
  intros Hagree. apply map_eq; intros k. rewrite !declaredOnly_lookup.
  case_decide; auto.
Qed.

Lemma declaredOnly_idemp (o : JsObject) :
  declaredOnly (declaredOnly o) = declaredOnly o.
Proof.
  apply map_eq; intros k. rewrite !declaredOnly_lookup. by case_decide.
Qed.

Lemma sample_reads_declared_fields_only :
  @ReadsDeclaredFieldsOnly Sample.imports.
Proof.
  intros o. simpl. unfold Sample.keepDeclared. by rewrite declaredOnly_idemp.
Qed.

(** The converter of the sample keeps the data and the gas limit of its
    argument under their own names. *)
Lemma sample_converter_carries (o c : JsObject) :
  @transactionRequestFromEthersTransactionRequest Sample.imports o
  = Returned c →
  c !! "data" = o !! "data" ∧ c !! "gasLimit" = o !! "gasLimit".
Proof.
  simpl. unfold Sample.keepDeclared. intros [= <-].
  rewrite !declaredOnly_lookup.
  by rewrite !decide_True by (apply list_elem_of_In; simpl; tauto).
Qed.

Section ProviderProperties.
Context {C P : Type} `{!ChainService C} `{!PreferenceService P} `{!Imports}.

(** *** Resolving the active network of an origin *)

Lemma getActiveOrDefaultNetwork_read_only
    (origin : string) (s : Service C P) :
  (getActiveOrDefaultNetwork origin s).2 = s.
Proof.
  unfold getActiveOrDefaultNetwork, getInternalActiveChain, bind, gets,
    getActiveNetworkForOrigin; simpl.
  destruct (db s !! origin); [done|].
  by destruct (db s !! TALLY_INTERNAL_ORIGIN).
Qed.

Lemma getActiveOrDefaultNetwork_selected
    (origin : string) (s : Service C P) (row : ActiveNetwork) :
  db s !! origin = Some row →
  getActiveOrDefaultNetwork origin s = (Returned (network row), s).
Proof.
  intros Hrow.
  unfold getActiveOrDefaultNetwork, bind, gets, getActiveNetworkForOrigin.
  by rewrite Hrow.
Qed.

Lemma getActiveOrDefaultNetwork_unselected
    (origin : string) (s : Service C P) :
  db s !! origin = None →
  getActiveOrDefaultNetwork origin s
  = match db s !! TALLY_INTERNAL_ORIGIN with
    | Some row => (Returned (network row), s)
    | None =>
        (Thrown (TypeError
                   "Cannot read properties of undefined (reading 'network')"),
         s)
    end.
Proof.
  intros Hnone.
  unfold getActiveOrDefaultNetwork, getInternalActiveChain, bind, gets,
    getActiveNetworkForOrigin.
  rewrite Hnone. by destruct (db s !! TALLY_INTERNAL_ORIGIN).
Qed.


(** *** eth_accounts *)

(** No run of [eth_accounts] returns the empty array. *)
Lemma eth_accounts_never_empty_array
    (params : list JsVal) (origin : string) (s : Service C P) :
  (routeSafeRPCRequest "eth_accounts" params origin s).1
  ≠ Returned (Value (JArr [])).
Proof.
  change (routeSafeRPCRequest "eth_accounts" params origin s)
    with (bind (onPreferences getSelectedAccount)
            (fun selected =>
               bind (liftOutcome (getField selected "address"))
                    (fun address => ret (Value (JArr [address]))))
            s).
  unfold bind, onPreferences, liftOutcome, ret.
  destruct (getSelectedAccount (preferenceService s)) as [[selected|e] p];
    simpl; [|done].
  by destruct (getField selected "address").
Qed.

(** C4 (as amended): when the preference service yields an account
    object, [eth_accounts] returns the one-element array of its
    [address]; the gateway and the table are not touched, and the result
    is not the empty array. *)
Theorem eth_accounts_returns_selected_address
    (params : list JsVal) (origin : string) (s : Service C P)
    (selected address : JsVal) (p : P) :
  getSelectedAccount (preferenceService s) = (Returned selected, p) →
  getField selected "address" = Returned address →
  routeSafeRPCRequest "eth_accounts" params origin s
  = (Returned (Value (JArr [address])),
     mkService (db s) (chainService s) p (activeNetwork s))
  ∧ (routeSafeRPCRequest "eth_accounts" params origin s).1
    ≠ Returned (Value (JArr [])).
Proof.
  intros Hselected Hfield.
  split; [|apply eth_accounts_never_empty_array].
  change (routeSafeRPCRequest "eth_accounts" params origin s)
    with (bind (onPreferences getSelectedAccount)
            (fun selected =>
               bind (liftOutcome (getField selected "address"))
                    (fun address => ret (Value (JArr [address]))))
            s).
  unfold bind, onPreferences, liftOutcome, ret.
  rewrite Hselected; simpl. by rewrite Hfield.
Qed.

End ProviderProperties.


(** C4 (as stated) fails: with no selected account the request throws, and
    with an account object that has no address it returns [[undefined]];
    neither is the empty array. *)
Lemma eth_accounts_without_selection_is_not_empty_array :
  (routeSafeRPCRequest "eth_accounts" [] Sample.dapp
     (Sample.started JUndefined)).1
  = Thrown (TypeError "Cannot read properties of undefined or null: address")
  ∧ (routeSafeRPCRequest "eth_accounts" [] Sample.dapp
       (Sample.started (JObj ∅))).1
    = Returned (Value (JArr [JUndefined])).
Proof. vm_compute. split; reflexivity. Qed.


Section ChainSwitch.
Context {C P : Type} `{!ChainService C} `{!PreferenceService P} `{!Imports}.

Lemma chain_switch_route (method : string) (params : list JsVal)
    (origin : string) :
  method ∈ chainSwitchMethods →
  routeSafeRPCRequest method params origin
  = bind (liftOutcome (getField (param params 0) "chainId"))
      (fun newChainId =>
         bind (getActiveNetworkByChainId newChainId)
           (fun supportedNetwork =>
              match supportedNetwork with
              | Some supported =>
                  bind (modify (setDb (setActiveChainIdForOrigin origin
                                         supported)))
                       (fun _ => ret (Value JNull))
              | None => throw (EIP1193Error chainDisconnected)
              end)).
Proof. intros Hmethod. each_method Hmethod; reflexivity. Qed.

(** Looking a chain id up touches the gateway only. *)
Lemma getActiveNetworkByChainId_keeps_table
    (chainId : JsVal) (s : Service C P) :
  db (getActiveNetworkByChainId chainId s).2 = db s.
Proof.
  unfold getActiveNetworkByChainId, bind, tryCatch, onChain, modify, ret.
  destruct (getActiveNetworks (chainService s)) as [[nets|e] c1]; simpl;
    [|done].
  destruct (find _ nets) as [found|]; simpl; [done|].
  by destruct (activateNetworkOrThrow chainId c1) as [[activated|e] c2].
Qed.

(** A chain-switch request writes at most the row of its own origin. *)
Lemma chain_switch_writes_own_row (method : string) (params : list JsVal)
    (origin : string) (s : Service C P) :
  method ∈ chainSwitchMethods →
  db (routeSafeRPCRequest method params origin s).2 = db s
  ∨ ∃ n, db (routeSafeRPCRequest method params origin s).2
         = <[ origin := {| origin := origin; network := n |} ]> (db s).
Proof.
  intros Hmethod. rewrite chain_switch_route by done.
  unfold bind, liftOutcome.
  destruct (getField (param params 0) "chainId") as [chainId|e]; simpl;
    [|by left].
  pose proof (getActiveNetworkByChainId_keeps_table chainId s) as Hkeep.
  destruct (getActiveNetworkByChainId chainId s) as [[[n|]|e] s1];
    simpl in *; [right; exists n | left | left]; try done.
  unfold setDb, setActiveChainIdForOrigin; simpl. by rewrite Hkeep.
Qed.

(** C5 (as amended): every chain-switch request ends in one of these
    ways. When [chainId] cannot be read off the first parameter, it fails
    with that type error and nothing changes. When the gateway fails to
    list its active networks, it fails with that failure and the table is
    unchanged. Otherwise a network whose chain id matches, or else the one
    the gateway activates, is stored for the origin and [null] is returned;
    and when the activation fails the request fails with the
    chain-disconnected error and the table is unchanged. The stored network
    is one of the active networks or the one the gateway activated. *)
Theorem chain_switch_selects_supported_network_or_fails
    (method : string) (params : list JsVal) (origin : string)
    (s : Service C P) :
  method ∈ chainSwitchMethods →
  let out := routeSafeRPCRequest method params origin s in
  match getField (param params 0) "chainId" with
  | Thrown e => out = (Thrown e, s)
  | Returned chainId =>
      match getActiveNetworks (chainService s) with
      | (Thrown e, _) => out.1 = Thrown e ∧ db out.2 = db s
      | (Returned nets, c1) =>
          match
            List.find
              (fun n => String.eqb (toHexChainID (JStr (chainID n)))
                                   (toHexChainID chainId))
              nets
          with
          | Some found =>
              found ∈ nets
              ∧ out.1 = Returned (Value JNull)
              ∧ db out.2
                = <[ origin := {| origin := origin; network := found |} ]>
                    (db s)
          | None =>
              match activateNetworkOrThrow chainId c1 with
              | (Returned activated, _) =>
                  out.1 = Returned (Value JNull)
                  ∧ db out.2
                    = <[ origin :=
                           {| origin := origin; network := activated |} ]>
                        (db s)
              | (Thrown _, _) =>
                  out.1 = Thrown (EIP1193Error chainDisconnected)
                  ∧ db out.2 = db s
              end
          end
      end
  end.
Proof.
  intros Hmethod out. subst out.
  rewrite chain_switch_route by done.
  unfold bind, liftOutcome.
  destruct (getField (param params 0) "chainId") as [chainId|x]; [|done].
  unfold getActiveNetworkByChainId, bind, tryCatch, onChain, modify, ret,
    throw.
  destruct (getActiveNetworks (chainService s)) as [[nets|x] c1]; simpl;
    [|done].
  destruct (find _ nets) as [found|] eqn:Hfind; simpl.
  - split; [|done].
    apply find_some in Hfind as [Hin _]. by apply list_elem_of_In.
  - by destruct (activateNetworkOrThrow chainId c1) as [[activated|e] c2].
Qed.

(** C8 (as amended): a chain-switch request of [o1] leaves the row of
    every other origin [o2] as it was, and [o2] resolves to the same
    network as before whenever [o2] has a row of its own or [o1] is not
    the internal origin. *)
Theorem chain_switch_leaves_other_origins
    (method : string) (params : list JsVal) (o1 o2 : string) (s : Service C P) :
  o1 ≠ o2 →
  method ∈ chainSwitchMethods →
  let s' := (routeSafeRPCRequest method params o1 s).2 in
  db s' !! o2 = db s !! o2
  ∧ (is_Some (db s !! o2) ∨ o1 ≠ TALLY_INTERNAL_ORIGIN →
     (getActiveOrDefaultNetwork o2 s').1 = (getActiveOrDefaultNetwork o2 s).1).
Proof.
  intros Hne Hmethod s'.
  assert (Hframe : ∀ o, o1 ≠ o → db s' !! o = db s !! o).
  { intros o Ho. subst s'.
    destruct (chain_switch_writes_own_row method params o1 s Hmethod)
      as [-> | [n ->]]; [done|].
    by rewrite lookup_insert_ne. }
  split; [by apply Hframe|].
  intros [[row Hrow] | Hinternal].
  - rewrite (getActiveOrDefaultNetwork_selected o2 s row) by done.
    rewrite (getActiveOrDefaultNetwork_selected o2 s' row); [done|].
    by rewrite Hframe.
  - destruct (db s !! o2) as [row|] eqn:Hrow.
    + rewrite (getActiveOrDefaultNetwork_selected o2 s row) by done.
      rewrite (getActiveOrDefaultNetwork_selected o2 s' row); [done|].
      by rewrite Hframe.
    + rewrite !getActiveOrDefaultNetwork_unselected;
        rewrite ?Hframe; try done.
      by destruct (db s !! TALLY_INTERNAL_ORIGIN).
Qed.
End ChainSwitch.

(** C8 (as stated) fails when the switching origin is the internal one: an
    origin without a row of its own follows the internal selection. *)
Lemma internal_switch_moves_unselected_origins :
  TALLY_INTERNAL_ORIGIN ≠ Sample.dapp
  ∧ (routeSafeRPCRequest "wallet_switchEthereumChain"
       [JObj (<[ "chainId" := JStr "0x89" ]> ∅)] TALLY_INTERNAL_ORIGIN
       (Sample.started JNull)).1
    = Returned (Value JNull)
  ∧ (getActiveOrDefaultNetwork Sample.dapp (Sample.started JNull)).1
    = Returned Sample.MAINNET
  ∧ (getActiveOrDefaultNetwork Sample.dapp
       (routeSafeRPCRequest "wallet_switchEthereumChain"
          [JObj (<[ "chainId" := JStr "0x89" ]> ∅)] TALLY_INTERNAL_ORIGIN
          (Sample.started JNull)).2).1
    = Returned Sample.POLYGON.
Proof. vm_compute. repeat split; discriminate. Qed.

(** ** Transaction requests *)

Lemma ethersRequestOf_object (tr : JsObject) :
  ethersRequestOf (JObj tr)
  = Returned (<[ "gasLimit" := getProp tr "gas" ]>
                (tr ∪ {[ "data" := getProp tr "input" ]})).
Proof. reflexivity. Qed.

(** The fields of the request handed to the converter. *)
Lemma ethersRequest_lookup (tr : JsObject) (k : string) :
  (<[ "gasLimit" := getProp tr "gas" ]>
     (tr ∪ {[ "data" := getProp tr "input" ]}) : JsObject) !! k
  = if decide (k = "gasLimit") then Some (getProp tr "gas")
    else if decide (k = "data")
         then Some (default (getProp tr "input") (tr !! "data"))
         else tr !! k.
Proof.
  case_decide as Hgas; [subst; by rewrite lookup_insert_eq|].
  rewrite lookup_insert_ne by done. rewrite lookup_union.
  case_decide as Hdata.
  - subst. rewrite lookup_singleton_eq. by destruct (tr !! "data").
  - rewrite lookup_singleton_ne by done. by destruct (tr !! k).
Qed.

(** Normalising twice is normalising once. *)
Lemma ethersRequestOf_idemp (tr e : JsObject) :
  ethersRequestOf (JObj tr) = Returned e →
  ethersRequestOf (JObj e) = Returned e.
Proof.
  rewrite ethersRequestOf_object. intros [= <-].
  rewrite ethersRequestOf_object. f_equal.
  apply map_eq; intros k. rewrite !ethersRequest_lookup.
  unfold getProp at 1 3. rewrite !ethersRequest_lookup. simpl.
  repeat case_decide; try done.
Qed.

Lemma annotation_not_declared : "annotation" ∉ ethersTransactionRequestFields.
Proof. rewrite list_elem_of_In. simpl. intuition discriminate. Qed.

Lemma input_not_declared : "input" ∉ ethersTransactionRequestFields.
Proof. rewrite list_elem_of_In. simpl. intuition discriminate. Qed.

Lemma gas_not_declared : "gas" ∉ ethersTransactionRequestFields.
Proof. rewrite list_elem_of_In. simpl. intuition discriminate. Qed.

Section TransactionRequests.
Context {C P : Type} `{!ChainService C} `{!PreferenceService P} `{!Imports}.

Lemma annotationOf_external (transactionRequest : JsVal) (origin : string) :
  origin ≠ TALLY_INTERNAL_ORIGIN →
  annotationOf transactionRequest origin = Returned JUndefined.
Proof.
  intros Hne. unfold annotationOf.
  by apply String.eqb_neq in Hne as ->.
Qed.

(** The annotation of a request object depends on its [annotation] field
    alone. *)
Lemma annotationOf_object (tr1 tr2 : JsObject) (origin : string) :
  tr1 !! "annotation" = tr2 !! "annotation" →
  annotationOf (JObj tr1) origin = annotationOf (JObj tr2) origin.
Proof.
  intros Hsame. unfold annotationOf, inOperator, hasProp, getField, getProp.
  by rewrite Hsame.
Qed.

(** [signTransaction] is a function of the annotation and of the converted
    request. *)
Lemma signTransaction_ext
    (tr1 tr2 : JsVal) (origin : string) (s : Service C P) :
  annotationOf tr1 origin = annotationOf tr2 origin →
  convertedOf tr1 = convertedOf tr2 →
  signTransaction tr1 origin s = signTransaction tr2 origin s.
Proof.
  intros Hannotation Hconverted.
  unfold signTransaction, bind, liftOutcome, convertedOf in *.
  rewrite Hannotation. destruct (annotationOf tr2 origin); [|done].
  destruct (ethersRequestOf tr1) as [e1|x1], (ethersRequestOf tr2) as [e2|x2];
    simpl in *; rewrite ?Hconverted; try done.
  - by rewrite <- Hconverted.
  - by injection Hconverted as ->.
Qed.

(** A converter that reads declared fields only gives the same result on
    two requests whose normal forms agree on the declared fields. *)
Lemma convertedOf_declared (tr1 tr2 : JsObject) :
  ReadsDeclaredFieldsOnly →
  (∀ k e1 e2,
      k ∈ ethersTransactionRequestFields →
      ethersRequestOf (JObj tr1) = Returned e1 →
      ethersRequestOf (JObj tr2) = Returned e2 →
      e1 !! k = e2 !! k) →
  convertedOf (JObj tr1) = convertedOf (JObj tr2).
Proof.
  intros Hreads Hagree. unfold convertedOf.
  rewrite !ethersRequestOf_object in *.
  rewrite Hreads. symmetry. rewrite Hreads. symmetry.
  f_equal. apply declaredOnly_agree. intros k Hk. by eapply Hagree.
Qed.

Lemma convertedOf_off_annotation (tr1 tr2 : JsObject) :
  ReadsDeclaredFieldsOnly →
  (∀ k, k ≠ "annotation" → tr1 !! k = tr2 !! k) →
  convertedOf (JObj tr1) = convertedOf (JObj tr2).
Proof.
  intros Hreads Hsame. apply convertedOf_declared; [done|].
  intros k e1 e2 Hk. rewrite !ethersRequestOf_object. intros [= <-] [= <-].
  rewrite !ethersRequest_lookup. unfold getProp.
  rewrite !(Hsame "gas"), !(Hsame "input"), !(Hsame "data") by done.
  repeat case_decide; try done.
  apply Hsame. intros ->. by apply annotation_not_declared.
Qed.

Lemma route_eth_sendTransaction (params : list JsVal) (origin : string) :
  routeSafeRPCRequest "eth_sendTransaction" params origin
  = bind (signTransaction
            (JObj (spreadThen (ownProps (param params 0)) "nonce" JUndefined))
            origin)
         (fun request => ret (AwaitingUser request ThenBroadcast)).
Proof. reflexivity. Qed.

Lemma route_eth_signTransaction (params : list JsVal) (origin : string) :
  routeSafeRPCRequest "eth_signTransaction" params origin
  = bind (signTransaction (param params 0) origin)
         (fun request => ret (AwaitingUser request ThenSerialize)).
Proof. reflexivity. Qed.

(** The payload that [signTransaction] emits carries the annotation it
    computed. *)
Lemma signTransaction_annotation (transactionRequest : JsVal)
    (origin : string) (s s' : Service C P) (request : DAppRequestEvent) :
  signTransaction transactionRequest origin s = (Returned request, s') →
  ∃ annotation,
    annotationOf transactionRequest origin = Returned annotation
    ∧ payload request !! "annotation" = Some annotation.
Proof.
  unfold signTransaction, bind, liftOutcome, ret, throw.
  destruct (annotationOf transactionRequest origin) as [annotation|x];
    [|done].
  destruct (ethersRequestOf transactionRequest) as [e|x]; [|done].
  destruct (transactionRequestFromEthersTransactionRequest e) as [c|x];
    [|done].
  destruct (isUndefined (getProp c "from")); [done|].
  destruct (getActiveOrDefaultNetwork origin s) as [[n|x] s1]; [|done].
  intros [= <- <-]. exists annotation. split; [done|].
  unfold spreadThen; simpl. by rewrite lookup_insert_eq.
Qed.

(** C1: for a transaction method and an origin other than the internal
    one, the emitted payload never carries an annotation, and two requests
    that differ in the [annotation] field only are routed to the same
    result (the converter reading the declared fields of its argument). *)
Theorem annotation_ignored_unless_internal_origin
    (method : string) (origin : string) (s : Service C P) :
  ReadsDeclaredFieldsOnly →
  method ∈ transactionMethods →
  origin ≠ TALLY_INTERNAL_ORIGIN →
  (∀ params emitted,
      payloadOf (routeSafeRPCRequest method params origin s).1 = Some emitted →
      emitted !! "annotation" = Some JUndefined)
  ∧ (∀ tr1 tr2 rest,
        (∀ k, k ≠ "annotation" → tr1 !! k = tr2 !! k) →
        routeSafeRPCRequest method (JObj tr1 :: rest) origin s
        = routeSafeRPCRequest method (JObj tr2 :: rest) origin s).
Proof.
  intros Hreads Hmethod Horigin. split.
  - intros params emitted.
    assert (Hsign : ∀ tr next,
      payloadOf (bind (signTransaction tr origin)
                   (fun request => ret (AwaitingUser request next)) s).1
      = Some emitted →
      emitted !! "annotation" = Some JUndefined).
    { intros tr next. unfold bind.
      destruct (signTransaction tr origin s) as [[request|x] s1] eqn:Hrun;
        simpl; [|done].
      intros [= <-].
      apply signTransaction_annotation in Hrun as (a & Ha & ->).
      rewrite annotationOf_external in Ha by done. by injection Ha as <-. }
    each_method Hmethod.
    + rewrite route_eth_sendTransaction. apply Hsign.
    + rewrite route_eth_signTransaction. apply Hsign.
  - intros tr1 tr2 rest Hsame.
    each_method Hmethod.
    + rewrite !route_eth_sendTransaction. unfold bind, param; simpl.
      rewrite (signTransaction_ext
                 (JObj (spreadThen tr1 "nonce" JUndefined))
                 (JObj (spreadThen tr2 "nonce" JUndefined))); [done| |].
      * by rewrite !annotationOf_external.
      * apply convertedOf_off_annotation; [done|].
        intros k Hk. unfold spreadThen.
        destruct (decide (k = "nonce")) as [->|Hnonce];
          [by rewrite !lookup_insert_eq|].
        rewrite !lookup_insert_ne by done. by apply Hsame.
    + rewrite !route_eth_signTransaction. unfold bind, param; simpl.
      rewrite (signTransaction_ext (JObj tr1) (JObj tr2)); [done| |].
      * by rewrite !annotationOf_external.
      * by apply convertedOf_off_annotation.
Qed.

(** [eth_sendTransaction] replaces the nonce of the request before
    anything reads it. *)
Lemma eth_sendTransaction_ignores_caller_nonce
    (tr : JsObject) (nonce : JsVal) (rest : list JsVal) (origin : string)
    (s : Service C P) :
  routeSafeRPCRequest "eth_sendTransaction"
    (JObj (<[ "nonce" := nonce ]> tr) :: rest) origin s
  = routeSafeRPCRequest "eth_sendTransaction" (JObj tr :: rest) origin s.
Proof.
  rewrite !route_eth_sendTransaction. unfold param, spreadThen; simpl.
  by rewrite insert_insert_eq.
Qed.

(** [eth_signTransaction] hands the nonce of the request to the
    converter. *)
Lemma eth_signTransaction_passes_caller_nonce (tr : JsObject) :
  ∃ e, ethersRequestOf (JObj tr) = Returned e ∧ e !! "nonce" = tr !! "nonce".
Proof.
  eexists. split; [apply ethersRequestOf_object|].
  rewrite ethersRequest_lookup. by repeat case_decide.
Qed.

(** C7: when a request object has a [data] field, the request handed to
    the converter carries that value as [data] and the value of [gas] as
    [gasLimit], whatever [input] holds, and signing the request is signing
    this normal form. Whenever a request is emitted, its payload is the
    result of the converter on that normal form in every field but [from],
    [network] and [annotation]; so, whatever the names under which the
    converter keeps the data and the gas limit of its argument, the emitted
    request has the explicit data value and the value of [gas] there. And,
    the converter reading declared fields only, the value of [input] has no
    effect on what is emitted. *)
Theorem explicit_data_preferred_over_input
    (tr : JsObject) (d : JsVal) (origin : string) (s : Service C P) :
  tr !! "data" = Some d →
  (∃ e, ethersRequestOf (JObj tr) = Returned e
        ∧ e !! "data" = Some d
        ∧ e !! "gasLimit" = Some (getProp tr "gas")
        ∧ signTransaction (JObj tr) origin s = signTransaction (JObj e) origin s
        ∧ ∀ request s',
            signTransaction (JObj tr) origin s = (Returned request, s') →
            ∃ converted,
              transactionRequestFromEthersTransactionRequest e
              = Returned converted
              ∧ (∀ k, k ∉ [ "from"; "network"; "annotation" ] →
                      payload request !! k = converted !! k)
              ∧ ∀ dataField gasField,
                  (∀ o c,
                      transactionRequestFromEthersTransactionRequest o
                      = Returned c →
                      c !! dataField = o !! "data"
                      ∧ c !! gasField = o !! "gasLimit") →
                  dataField ∉ [ "from"; "network"; "annotation" ] →
                  gasField ∉ [ "from"; "network"; "annotation" ] →
                  payload request !! dataField = Some d
                  ∧ payload request !! gasField = Some (getProp tr "gas"))
  ∧ (ReadsDeclaredFieldsOnly →
     ∀ i, signTransaction (JObj (<[ "input" := i ]> tr)) origin s
          = signTransaction (JObj tr) origin s).
Proof.
  intros Hdata. split.
  - eexists. split; [apply ethersRequestOf_object|].
    rewrite !ethersRequest_lookup, Hdata; simpl.
    split; [done|]. split; [done|]. split.
    { apply signTransaction_ext.
      + apply annotationOf_object. rewrite ethersRequest_lookup.
        by repeat case_decide.
      + unfold convertedOf.
        by rewrite (ethersRequestOf_idemp tr _ (ethersRequestOf_object tr)). }
    intros request s'.
    unfold signTransaction, bind, liftOutcome, ret, throw.
    rewrite ethersRequestOf_object.
    destruct (annotationOf (JObj tr) origin) as [annotation|x]; [|done].
    destruct (transactionRequestFromEthersTransactionRequest _)
      as [converted|x] eqn:Hconverted; [|done].
    destruct (isUndefined (getProp converted "from")); [done|].
    destruct (getActiveOrDefaultNetwork origin s) as [[n|x] s1]; [|done].
    intros [= <- <-]. exists converted. split; [done|].
    assert (Hpayload : ∀ k,
      k ∉ [ "from"; "network"; "annotation" ] →
      (spreadThen
         (spreadThen
            (spreadThen (delete "from" converted) "from"
               (getProp converted "from"))
            "network" (networkToJs n))
         "annotation" annotation : JsObject) !! k
      = converted !! k).
    { intros k Hk. rewrite !not_elem_of_cons in Hk.
      destruct Hk as (Hfrom & Hnetwork & Hannotation & _).
      unfold spreadThen.
      do 3 (rewrite lookup_insert_ne by done).
      by rewrite lookup_delete_ne. }
    split; [exact Hpayload|].
    intros dataField gasField Hcarries HdataField HgasField. simpl.
    destruct (Hcarries _ _ Hconverted) as [Hd Hg].
    rewrite !Hpayload, Hd, Hg by done.
    rewrite !ethersRequest_lookup, Hdata. simpl. by repeat case_decide.
  - intros Hreads i. apply signTransaction_ext.
    + apply annotationOf_object. by rewrite lookup_insert_ne.
    + apply convertedOf_declared; [done|].
      intros k e1 e2 Hk. rewrite !ethersRequestOf_object.
      intros [= <-] [= <-]. rewrite !ethersRequest_lookup.
      assert (Hd : (<[ "input" := i ]> tr : JsObject) !! "data" = Some d)
        by (by rewrite lookup_insert_ne).
      assert (Hg : (<[ "input" := i ]> tr : JsObject) !! "gas" = tr !! "gas")
        by (by rewrite lookup_insert_ne).
      unfold getProp. rewrite Hd, Hg, Hdata; simpl.
      repeat case_decide; try done.
      rewrite lookup_insert_ne; [done|].
      intros <-. by apply input_not_declared.
Qed.

(** Without a [data] field the converter receives the value of [input] as
    [data]. *)
Lemma input_used_when_data_absent (tr : JsObject) :
  tr !! "data" = None →
  ∃ e, ethersRequestOf (JObj tr) = Returned e
       ∧ e !! "data" = Some (getProp tr "input")
       ∧ e !! "gasLimit" = Some (getProp tr "gas").
Proof.
  intros Hdata. eexists. split; [apply ethersRequestOf_object|].
  rewrite !ethersRequest_lookup, Hdata. by repeat case_decide.
Qed.
End TransactionRequests.

(** ** Pending approvals *)

Lemma invoke_settled (p : PromiseState) (d : Decision) :
  isSettled p = true → invoke p d = p.
Proof. by destruct p, d. Qed.

Lemma invoke_pending_settles (d : Decision) :
  isSettled (invoke Pending d) = true.
Proof. by destruct d. Qed.

Lemma invoke_all_settled (p : PromiseState) (ds : list Decision) :
  isSettled p = true → fold_left invoke ds p = p.
Proof.
  intros Hp. induction ds as [|d ds IH]; simpl; [done|].
  by rewrite invoke_settled.
Qed.

Section PendingApprovals.
Context {C P : Type} `{!ChainService C} `{!PreferenceService P} `{!Imports}.

Lemma route_signTypedData (method : string) (params : list JsVal)
    (origin : string) :
  method ∈ signTypedDataMethods →
  routeSafeRPCRequest method params origin
  = bind (getActiveOrDefaultNetwork origin)
      (fun activeNetwork =>
         bind (liftOutcome (JSON_parse (param params 1)))
           (fun typedData =>
              bind (signTypedData
                      (<[ "account" :=
                            JObj (<[ "address" := param params 0 ]>
                                  (<[ "network" := networkToJs activeNetwork ]>
                                     ∅)) ]>
                         (<[ "typedData" := typedData ]> ∅)))
                   (fun request => ret (AwaitingUser request ThenResult)))).
Proof. intros Hmethod. each_method Hmethod; reflexivity. Qed.

Lemma route_eth_sign (params : list JsVal) (origin : string) :
  routeSafeRPCRequest "eth_sign" params origin
  = bind (signData (param params 1) (param params 0) origin)
         (fun request => ret (AwaitingUser request ThenResult)).
Proof. reflexivity. Qed.

Lemma route_personal_sign (params : list JsVal) (origin : string) :
  routeSafeRPCRequest "personal_sign" params origin
  = bind (signData (param params 0) (param params 1) origin)
         (fun request => ret (AwaitingUser request ThenResult)).
Proof. reflexivity. Qed.

Lemma bind_awaits_user {A : Type} (m : Async (Service C P) A)
    (k : A → DAppRequestEvent) (next : Then) (s s' : Service C P)
    (routed : Routed) :
  bind m (fun a => ret (AwaitingUser (k a) next)) s = (Returned routed, s') →
  ∃ request, routed = AwaitingUser request next.
Proof.
  unfold bind, ret. destruct (m s) as [[a|x] s1]; [|done].
  intros [= <- <-]. eauto.
Qed.

(** A signing method that returns at all returns a promise waiting for the
    user interface. *)
Lemma signing_method_awaits_user (method : string) (params : list JsVal)
    (origin : string) (s s' : Service C P) (routed : Routed) :
  method ∈ signingMethods →
  routeSafeRPCRequest method params origin s = (Returned routed, s') →
  ∃ request next, routed = AwaitingUser request next.
Proof.
  intros Hmethod.
  assert (Htyped : method ∈ signTypedDataMethods → 
    routeSafeRPCRequest method params origin s = (Returned routed, s') →
    ∃ request next, routed = AwaitingUser request next).
  { intros Hin. rewrite route_signTypedData by done.
    unfold bind, signTypedData, liftOutcome, ret.
    destruct (getActiveOrDefaultNetwork origin s) as [[n|x] s1]; [|done].
    destruct (JSON_parse (param params 1)) as [typed|x]; [|done].
    intros [= <- <-]. eauto. }
  unfold signingMethods in Hmethod.
  apply elem_of_app in Hmethod as [Hmethod | Hmethod]; [by apply Htyped|].
  clear Htyped. simpl in Hmethod. each_method Hmethod.
  - rewrite route_eth_sendTransaction.
    intros [request ->]%(bind_awaits_user _ (fun r => r)). eauto.
  - rewrite route_eth_signTransaction.
    intros [request ->]%(bind_awaits_user _ (fun r => r)). eauto.
  - rewrite route_eth_sign.
    intros [request ->]%(bind_awaits_user _ (fun r => r)). eauto.
  - rewrite route_personal_sign.
    intros [request ->]%(bind_awaits_user _ (fun r => r)). eauto.
Qed.

(** C2: a signing method hands the user interface a pending approval.
    While no decision is made the caller keeps waiting. The first call of
    the resolver or the rejecter settles it: the caller's await then ends
    with the rest of the promise chain run on the given result, or with a
    rejection, and it is the same whatever calls follow; every later call
    leaves the promise as it is. *)
Theorem approval_settled_by_first_decision_only
    (method : string) (params : list JsVal) (origin : string)
    (s s' : Service C P) (routed : Routed)
    (first : Decision) (later : list Decision) :
  method ∈ signingMethods →
  routeSafeRPCRequest method params origin s = (Returned routed, s') →
  (∃ request next,
      routed = AwaitingUser request next
      ∧ observed (C := C) (P := P) routed (first :: later)
        = Some (match first with
                | callResolver result => andThen next result
                | callRejecter => throw (Rejection JUndefined)
                end)
      ∧ awaitRoute method params origin (first :: later) s
        = match first with
          | callResolver result =>
              let '(r, s2) := andThen next result s' in (Some r, s2)
          | callRejecter => (Some (Thrown (Rejection JUndefined)), s')
          end)
  ∧ observed (C := C) (P := P) routed [] = None
  ∧ awaitRoute method params origin [] s = (None, s')
  ∧ fold_left invoke (first :: later) Pending
    = match first with
      | callResolver result => Fulfilled result
      | callRejecter => Rejected JUndefined
      end
  ∧ (∀ again, invoke (fold_left invoke (first :: later) Pending) again
              = fold_left invoke (first :: later) Pending)
  ∧ observed (C := C) (P := P) routed (first :: later)
    = observed routed [first].
Proof.
  intros Hmethod Hroute.
  destruct (signing_method_awaits_user _ _ _ _ _ _ Hmethod Hroute)
    as (request & next & ->).
  assert (Hfirst : fold_left invoke (first :: later) Pending
                   = invoke Pending first).
  { simpl. apply invoke_all_settled, invoke_pending_settles. }
  split_and!.
  - exists request, next. split_and!; [done| |].
    + unfold observed. rewrite Hfirst. by destruct first.
    + unfold awaitRoute. rewrite Hroute. unfold observed.
      rewrite Hfirst. by destruct first.
  - done.
  - unfold awaitRoute. by rewrite Hroute.
  - rewrite Hfirst. by destruct first.
  - intros again. rewrite Hfirst.
    apply invoke_settled, invoke_pending_settles.
  - unfold observed. by rewrite Hfirst.
Qed.

(** ** The internal provider port *)

(** C10: whatever exception ends the routing of a request from the
    internal port, the one response posted carries the EIP-1193
    user-rejected-request error, code 4001. *)
Theorem internal_port_failure_posts_user_rejection
    (eventId : JsVal) (method : string) (params : list JsVal)
    (ui : list Decision) (s s' : Service C P) (e : Exception) :
  awaitRoute method params TALLY_INTERNAL_ORIGIN ui s = (Some (Thrown e), s') →
  onInternalMessage eventId method params ui s
  = ([{| responseId := eventId; result := toJSON userRejectedRequest |}], s')
  ∧ toJSON userRejectedRequest
    = JObj (<[ "code" := JNum 4001 ]>
            (<[ "message" := JStr "User rejected the request." ]> ∅)).
Proof.
  intros Hfail. unfold onInternalMessage. by rewrite Hfail.
Qed.
End PendingApprovals.

(** ** WalletConnect session proposals *)

Section Proposals.
Variable relay : SignClientCall → Outcome unit.
Variable templateText : JsVal → string.
Variable isEIP1193Error : JsVal → bool.

Lemma rejectProposal_approvals (proposal : Z) (w : WalletConnect) :
  approvals (rejectProposal relay proposal w).2 = approvals w.
Proof.
  unfold rejectProposal, approvals, callsOf, onSignClient.
  destruct (signClient w) as [calls|] eqn:Hclient; simpl;
    [|by rewrite Hclient].
  rewrite List.filter_app; simpl. rewrite app_nil_r.
  unfold callsOf. by rewrite Hclient.
Qed.

Lemma acknowledgeProposal_without_eip155 (proposal : SessionProposal)
    (selectedAccounts : list JsVal) :
  requiredNamespaces proposal !! "eip155" = None →
  acknowledgeProposal relay templateText proposal selectedAccounts
  = rejectProposal relay (proposalId proposal).
Proof.
  intros Hnone. unfold acknowledgeProposal, ethNamespaceKey. by rewrite Hnone.
Qed.

Lemma onProposalMessage_approvals (proposal : SessionProposal)
    (message : JsVal) (w : WalletConnect) :
  requiredNamespaces proposal !! "eip155" = None →
  approvals
    (onProposalMessage relay templateText isEIP1193Error proposal message w).2
  = approvals w.
Proof.
  intros Hnone. unfold onProposalMessage.
  destruct message as [| | | | |[|first rest]|];
    try (destruct (isEIP1193Error _);
         [apply rejectProposal_approvals | done]).
  rewrite acknowledgeProposal_without_eip155 by done.
  apply rejectProposal_approvals.
Qed.

(** What one result on the proposal port adds to the calls, for a proposal
    without an [eip155] requirement. *)
Lemma onProposalMessage_calls_without_eip155 (proposal : SessionProposal)
    (message : JsVal) (w : WalletConnect) (calls : list SignClientCall) :
  requiredNamespaces proposal !! "eip155" = None →
  signClient w = Some calls →
  (onProposalMessage relay templateText isEIP1193Error proposal message w).2
  = mkWalletConnect
      (Some (calls
             ++ if isDecision isEIP1193Error message
                then [rejectCall (proposalId proposal) "USER_REJECTED_METHODS"]
                else [])%list)
      (senderUrl w).
Proof.
  intros Hnone Hclient.
  assert (Hreject :
    (rejectProposal relay (proposalId proposal) w).2
    = mkWalletConnect
        (Some (calls
               ++ [rejectCall (proposalId proposal) "USER_REJECTED_METHODS"])
           %list)
        (senderUrl w)).
  { unfold rejectProposal, onSignClient, callsOf. by rewrite Hclient. }
  assert (Hidle : (ret tt w : Outcome unit * WalletConnect).2
                  = mkWalletConnect (Some (calls ++ [])%list) (senderUrl w)).
  { rewrite app_nil_r. destruct w as [client url]. simpl in *. by subst. }
  unfold onProposalMessage, isDecision.
  destruct message as [| | | | |[|item items]|];
    try (destruct (isEIP1193Error _); [exact Hreject | exact Hidle]).
  by rewrite acknowledgeProposal_without_eip155.
Qed.

(** C9 (as amended): for a proposal whose required namespaces have no
    [eip155] entry, acknowledging is rejecting, and no approval or
    acknowledgement call is ever made. The rejection is not sent when the
    proposal arrives but by the callback of the account selection: on a
    sign client that is there and for a proposer with a URL, the calls made
    are one rejection of the proposal for every result on the port that is
    a non-empty account list or an EIP-1193 error, and nothing else. *)
Theorem proposal_without_eip155_is_never_approved
    (proposal : SessionProposal) (selectedAccounts : list JsVal)
    (w : WalletConnect) :
  requiredNamespaces proposal !! "eip155" = None →
  acknowledgeProposal relay templateText proposal selectedAccounts w
  = rejectProposal relay (proposalId proposal) w
  ∧ (∀ calls,
        signClient w = Some calls →
        callsOf
          (acknowledgeProposal relay templateText proposal selectedAccounts w).2
        = (calls
           ++ [rejectCall (proposalId proposal) "USER_REJECTED_METHODS"])%list)
  ∧ (∀ messages,
        approvals
          (sessionProposalListener relay templateText isEIP1193Error proposal
             messages w)
        = approvals w)
  ∧ (∀ messages calls,
        signClient w = Some calls →
        proposerUrl proposal ≠ EmptyString →
        callsOf
          (sessionProposalListener relay templateText isEIP1193Error proposal
             messages w)
        = (calls
           ++ map (fun _ =>
                     rejectCall (proposalId proposal) "USER_REJECTED_METHODS")
                (List.filter (isDecision isEIP1193Error) messages))%list).
Proof.
  intros Hnone. split_and!.
  - by rewrite acknowledgeProposal_without_eip155.
  - intros calls Hcalls. rewrite acknowledgeProposal_without_eip155 by done.
    unfold rejectProposal, onSignClient, callsOf. by rewrite Hcalls.
  - intros messages. unfold sessionProposalListener.
    set (w1 := mkWalletConnect (signClient w) (proposerUrl proposal)).
    assert (Hw1 : approvals w1 = approvals w) by done.
    destruct (String.eqb (senderUrl w1) EmptyString); [done|].
    rewrite <- Hw1. clear Hw1. generalize w1. clear w1.
    induction messages as [|m messages IH]; intros w1; simpl; [done|].
    rewrite IH. by apply onProposalMessage_approvals.
  - intros messages calls Hclient Hurl. unfold sessionProposalListener.
    set (w1 := mkWalletConnect (signClient w) (proposerUrl proposal)).
    assert (Hw1 : signClient w1 = Some calls) by done.
    replace (String.eqb (senderUrl w1) EmptyString) with false
      by (symmetry; by apply String.eqb_neq).
    clearbody w1. clear Hclient Hurl. revert calls w1 Hw1.
    induction messages as [|m messages IH]; intros calls w1 Hw1;
      cbn [fold_left List.filter].
    + unfold callsOf. rewrite Hw1. simpl. by rewrite app_nil_r.
    + rewrite (onProposalMessage_calls_without_eip155 proposal m w1 calls)
        by done.
      rewrite (IH (calls
                   ++ if isDecision isEIP1193Error m
                      then [rejectCall (proposalId proposal)
                              "USER_REJECTED_METHODS"]
                      else [])%list) by done.
      destruct (isDecision isEIP1193Error m); simpl.
      * by rewrite <- app_assoc.
      * by rewrite app_nil_r.
Qed.
End Proposals.

(** C9 (as stated) fails: a proposal without an [eip155] requirement is not
    rejected when it arrives, nor when the account selection answers with
    an empty list or with [null]; no rejection is sent then. *)
Lemma solana_proposal_not_rejected_without_decision :
  requiredNamespaces Sample.solanaOnly !! "eip155" = None
  ∧ callsOf
      (sessionProposalListener Sample.relayAccepts Sample.text
         SampleBridge.isError Sample.solanaOnly [] Sample.connected)
    = []
  ∧ callsOf
      (sessionProposalListener Sample.relayAccepts Sample.text
         SampleBridge.isError Sample.solanaOnly [JArr []; JNull]
         Sample.connected)
    = []
  ∧ rejectCall 7 "USER_REJECTED_METHODS"
    ∉ callsOf
        (sessionProposalListener Sample.relayAccepts Sample.text
           SampleBridge.isError Sample.solanaOnly [JArr []; JNull]
           Sample.connected).
Proof.
  split_and!; [reflexivity..|].
  vm_compute. by intros ?%elem_of_nil.
Qed.

(** C5 (as stated) fails: a chain-switch request without a parameter fails
    with the type error of reading [chainId] off [undefined], and one made
    while the gateway cannot list its networks fails with the failure of
    the gateway; neither is the chain-disconnected provider error, and no
    network is selected. *)
Lemma chain_switch_fails_otherwise_than_chain_disconnected :
  (routeSafeRPCRequest "wallet_switchEthereumChain" [] Sample.dapp
     (Sample.started JNull)
   = (Thrown (TypeError "Cannot read properties of undefined or null: chainId"),
      Sample.started JNull)
   ∧ (routeSafeRPCRequest "wallet_switchEthereumChain" [] Sample.dapp
        (Sample.started JNull)).1
     ≠ Thrown (EIP1193Error chainDisconnected))
  ∧ ((routeSafeRPCRequest "wallet_switchEthereumChain"
        [JObj (<[ "chainId" := JStr "0x89" ]> ∅)] Sample.dapp
        Sample.unreachable).1
     = Thrown (CollaboratorFailure "gateway offline")
     ∧ (routeSafeRPCRequest "wallet_switchEthereumChain"
          [JObj (<[ "chainId" := JStr "0x89" ]> ∅)] Sample.dapp
          Sample.unreachable).1
       ≠ Thrown (EIP1193Error chainDisconnected)).
Proof. vm_compute. repeat split; discriminate. Qed.

(** * The services on the sample collaborators *)

(** C3: [eth_signTransaction] hands the request over with the nonce the
    caller supplied, while [eth_sendTransaction] replaces it by
    [undefined]: the request emitted for signing carries nonce [0x7] on one
    path and none on the other. *)
Theorem eth_signTransaction_keeps_caller_nonce :
  (payloadOf
     (routeSafeRPCRequest "eth_signTransaction" [JObj Sample.transfer]
        Sample.dapp (Sample.started JNull)).1
   ≫= fun emitted => emitted !! "nonce")
  = Some (JStr "0x7")
  ∧ (payloadOf
       (routeSafeRPCRequest "eth_sendTransaction" [JObj Sample.transfer]
          Sample.dapp (Sample.started JNull)).1
     ≫= fun emitted => emitted !! "nonce")
    = Some JUndefined.
Proof. vm_compute. split; reflexivity. Qed.

(** [eth_sendTransaction] with [gas], [input] and no [data]: the emitted
    request has the gas as gas limit and the input as data. *)
Example send_with_input_only :
  let request :=
    <[ "from" := JStr "0xa11ce" ]>
      (<[ "gas" := JStr "0x5208" ]> (<[ "input" := JStr "0xabc" ]> ∅)) in
  let emitted :=
    payloadOf
      (routeSafeRPCRequest "eth_sendTransaction" [JObj request] Sample.dapp
         (Sample.started JNull)).1 in
  (emitted ≫= fun p => p !! "gasLimit") = Some (JStr "0x5208")
  ∧ (emitted ≫= fun p => p !! "data") = Some (JStr "0xabc").
Proof. vm_compute. split; reflexivity. Qed.

(** A dapp that adds an annotation to its request gets the same routing as
    without it. *)
Lemma annotation_ignored_for_dapp :
  routeSafeRPCRequest "eth_signTransaction"
    [JObj (<[ "annotation" := JStr "{}" ]> Sample.transfer)] Sample.dapp
    (Sample.started JNull)
  = routeSafeRPCRequest "eth_signTransaction" [JObj Sample.transfer]
      Sample.dapp (Sample.started JNull).
Proof.
  refine (proj2 (annotation_ignored_unless_internal_origin
                   "eth_signTransaction" Sample.dapp (Sample.started JNull)
                   sample_reads_declared_fields_only _ _) _ _ [] _).
  - by repeat constructor.
  - discriminate.
  - intros k Hk. by rewrite lookup_insert_ne.
Defined.


(** With account 0xa11ce selected, [eth_accounts] returns it. *)
Lemma eth_accounts_of_selected_account :
  routeSafeRPCRequest "eth_accounts" [] Sample.dapp
    (Sample.started (Sample.account "0xa11ce"))
  = (Returned (Value (JArr [JStr "0xa11ce"])),
     Sample.started (Sample.account "0xa11ce"))
  ∧ (routeSafeRPCRequest "eth_accounts" [] Sample.dapp
       (Sample.started (Sample.account "0xa11ce"))).1
    ≠ Returned (Value (JArr [])).
Proof.
  refine (eth_accounts_returns_selected_address
            [] Sample.dapp (Sample.started (Sample.account "0xa11ce"))
            (Sample.account "0xa11ce") (JStr "0xa11ce")
            (Sample.account "0xa11ce") _ _).
  - reflexivity.
  - reflexivity.
Defined.

(** Switching to Polygon stores it for the dapp; chain 0x5 is neither
    active nor activated and the request fails. *)
Lemma switch_to_polygon_and_to_unknown_chain :
  ((routeSafeRPCRequest "wallet_switchEthereumChain"
      [JObj (<[ "chainId" := JStr "0x89" ]> ∅)] Sample.dapp
      (Sample.started JNull)).1
   = Returned (Value JNull)
   ∧ db (routeSafeRPCRequest "wallet_switchEthereumChain"
           [JObj (<[ "chainId" := JStr "0x89" ]> ∅)] Sample.dapp
           (Sample.started JNull)).2
     = <[ Sample.dapp := Sample.row Sample.dapp Sample.POLYGON ]>
         (db (Sample.started JNull)))
  ∧ ((routeSafeRPCRequest "wallet_addEthereumChain"
        [JObj (<[ "chainId" := JStr "0x5" ]> ∅)] Sample.dapp
        (Sample.started JNull)).1
     = Thrown (EIP1193Error chainDisconnected)
     ∧ db (routeSafeRPCRequest "wallet_addEthereumChain"
             [JObj (<[ "chainId" := JStr "0x5" ]> ∅)] Sample.dapp
             (Sample.started JNull)).2
       = db (Sample.started JNull)).
Proof.
  split.
  - refine (proj2 (chain_switch_selects_supported_network_or_fails
                     "wallet_switchEthereumChain"
                     [JObj (<[ "chainId" := JStr "0x89" ]> ∅)] Sample.dapp
                     (Sample.started JNull) _)).
    by repeat constructor.
  - refine (chain_switch_selects_supported_network_or_fails
              "wallet_addEthereumChain"
              [JObj (<[ "chainId" := JStr "0x5" ]> ∅)] Sample.dapp
              (Sample.started JNull) _).
    by repeat constructor.
Defined.

(** The switch of one dapp leaves another dapp where it was. *)
Lemma dapp_switch_leaves_other_dapp :
  db (routeSafeRPCRequest "wallet_switchEthereumChain"
        [JObj (<[ "chainId" := JStr "0x89" ]> ∅)] Sample.dapp
        (Sample.started JNull)).2 !! Sample.otherDapp
  = db (Sample.started JNull) !! Sample.otherDapp
  ∧ (is_Some (db (Sample.started JNull) !! Sample.otherDapp)
     ∨ Sample.dapp ≠ TALLY_INTERNAL_ORIGIN →
     (getActiveOrDefaultNetwork Sample.otherDapp
        (routeSafeRPCRequest "wallet_switchEthereumChain"
           [JObj (<[ "chainId" := JStr "0x89" ]> ∅)] Sample.dapp
           (Sample.started JNull)).2).1
     = (getActiveOrDefaultNetwork Sample.otherDapp (Sample.started JNull)).1).
Proof.
  refine (chain_switch_leaves_other_origins
            "wallet_switchEthereumChain"
            [JObj (<[ "chainId" := JStr "0x89" ]> ∅)]
            Sample.dapp Sample.otherDapp (Sample.started JNull) _ _).
  - discriminate.
  - by repeat constructor.
Defined.

(** The sample transfer has both [data] and [input]: the request emitted
    for a dapp carries the explicit data 0x01 and the gas 0x5208 as gas
    limit, and it is the same whatever [input] holds. *)
Lemma transfer_data_preferred :
  (∃ request,
      (signTransaction (JObj Sample.transfer) Sample.dapp
         (Sample.started JNull)).1
      = Returned request
      ∧ payload request !! "data" = Some (JStr "0x01")
      ∧ payload request !! "gasLimit" = Some (JStr "0x5208"))
  ∧ (∀ i, signTransaction (JObj (<[ "input" := i ]> Sample.transfer))
            Sample.dapp (Sample.started JNull)
          = signTransaction (JObj Sample.transfer) Sample.dapp
              (Sample.started JNull)).
Proof.
  assert (Hdata : "data" ∉ [ "from"; "network"; "annotation" ]).
  { rewrite !not_elem_of_cons. split_and!; try discriminate.
    apply not_elem_of_nil. }
  assert (Hgas : "gasLimit" ∉ [ "from"; "network"; "annotation" ]).
  { rewrite !not_elem_of_cons. split_and!; try discriminate.
    apply not_elem_of_nil. }
  split.
  - eexists. split; [reflexivity|].
    match goal with
    | |- payload ?request !! _ = _ ∧ _ =>
        assert (Hrun : signTransaction (JObj Sample.transfer) Sample.dapp
                         (Sample.started JNull)
                       = (Returned request, Sample.started JNull))
          by reflexivity
    end.
    destruct (proj1 (explicit_data_preferred_over_input
                       Sample.transfer (JStr "0x01") Sample.dapp
                       (Sample.started JNull) eq_refl))
      as (e & _ & _ & _ & _ & Hemitted).
    destruct (Hemitted _ _ Hrun) as (converted & _ & _ & Hfields).
    exact (Hfields "data" "gasLimit" sample_converter_carries Hdata Hgas).
  - refine (proj2 (explicit_data_preferred_over_input
                     Sample.transfer (JStr "0x01") Sample.dapp
                     (Sample.started JNull) _)
                  sample_reads_declared_fields_only).
    reflexivity.
Defined.

(** An [eth_sign] approval that is resolved, then rejected, then resolved
    again: the caller gets the first result, and nothing while no decision
    is made. *)
Lemma eth_sign_settled_once :
  awaitRoute "eth_sign" [JStr "0xa11ce"; JStr "0x1234"] Sample.dapp
    [callResolver (JStr "0x5161"); callRejecter; callResolver JNull]
    (Sample.started JNull)
  = (Some (Returned (JStr "0x5161")), Sample.started JNull)
  ∧ awaitRoute "eth_sign" [JStr "0xa11ce"; JStr "0x1234"] Sample.dapp []
      (Sample.started JNull)
    = (None, Sample.started JNull).
Proof.
  assert (Hmethod : "eth_sign" ∈ signingMethods).
  { unfold signingMethods. apply elem_of_app. right. by repeat constructor. }
  assert (Hroute : ∃ routed,
    routeSafeRPCRequest "eth_sign" [JStr "0xa11ce"; JStr "0x1234"]
      Sample.dapp (Sample.started JNull)
    = (Returned routed, Sample.started JNull)).
  { eexists. reflexivity. }
  destruct Hroute as [routed Hroute].
  destruct (approval_settled_by_first_decision_only
              "eth_sign" [JStr "0xa11ce"; JStr "0x1234"] Sample.dapp
              (Sample.started JNull) (Sample.started JNull) routed
              (callResolver (JStr "0x5161"))
              [callRejecter; callResolver JNull] Hmethod Hroute)
    as ((request & next & Hrouted & _ & Hawait) & _ & Hwaiting & _).
  split; [|exact Hwaiting].
  rewrite Hawait. rewrite Hrouted in Hroute.
  injection Hroute as <- <-. reflexivity.
Defined.

(** An unsupported method, an unknown chain and a rejection by the user,
    all from the internal port. *)
Lemma internal_failures_look_alike :
  (onInternalMessage (JNum 1) "eth_coinbase" [] [] (Sample.started JNull)).1
  = [{| responseId := JNum 1; result := toJSON userRejectedRequest |}]
  ∧ (onInternalMessage (JNum 1) "wallet_switchEthereumChain"
       [JObj (<[ "chainId" := JStr "0x5" ]> ∅)] [] (Sample.started JNull)).1
    = [{| responseId := JNum 1; result := toJSON userRejectedRequest |}]
  ∧ (onInternalMessage (JNum 1) "eth_sign" [JStr "0xa11ce"; JStr "0x1234"]
       [callRejecter] (Sample.started JNull)).1
    = [{| responseId := JNum 1; result := toJSON userRejectedRequest |}].
Proof.
  split; [|split].
  - refine (f_equal fst
              (proj1 (internal_port_failure_posts_user_rejection
                        (JNum 1) "eth_coinbase" [] [] (Sample.started JNull)
                        (Sample.started JNull)
                        (EIP1193Error unsupportedMethod) _))).
    reflexivity.
  - refine (f_equal fst
              (proj1 (internal_port_failure_posts_user_rejection
                        (JNum 1) "wallet_switchEthereumChain"
                        [JObj (<[ "chainId" := JStr "0x5" ]> ∅)] []
                        (Sample.started JNull) (Sample.started JNull)
                        (EIP1193Error chainDisconnected) _))).
    reflexivity.
  - refine (f_equal fst
              (proj1 (internal_port_failure_posts_user_rejection
                        (JNum 1) "eth_sign" [JStr "0xa11ce"; JStr "0x1234"]
                        [callRejecter] (Sample.started JNull)
                        (Sample.started JNull) (Rejection JUndefined) _))).
    reflexivity.
Defined.

(** A proposal that requires the solana namespace only: the accounts the
    user selected and an EIP-1193 error each draw a rejection, the other
    results on the port draw nothing, and no approval is made. *)
Lemma solana_proposal_is_never_approved :
  callsOf
    (sessionProposalListener Sample.relayAccepts Sample.text
       SampleBridge.isError Sample.solanaOnly
       [JArr []; JNull; JArr [JStr "0xa11ce"]; JStr "ignored"]
       Sample.connected)
  = [rejectCall 7 "USER_REJECTED_METHODS"]
  ∧ approvals
      (sessionProposalListener Sample.relayAccepts Sample.text
         SampleBridge.isError Sample.solanaOnly
         [JArr []; JNull; JArr [JStr "0xa11ce"]; JStr "ignored"]
         Sample.connected)
    = [].
Proof.
  destruct (proposal_without_eip155_is_never_approved
              Sample.relayAccepts Sample.text SampleBridge.isError
              Sample.solanaOnly [JStr "0xa11ce"] Sample.connected eq_refl)
    as (_ & _ & Happrovals & Hcalls).
  split.
  - refine (Hcalls [JArr []; JNull; JArr [JStr "0xa11ce"]; JStr "ignored"]
              [] _ _).
    + reflexivity.
    + discriminate.
  - exact (Happrovals
             [JArr []; JNull; JArr [JStr "0xa11ce"]; JStr "ignored"]).
Defined.

(** * Further properties of the provider *)

Lemma elem_spec (x : string) (l : list string) : elem x l = true ↔ x ∈ l.
Proof.
  unfold elem. rewrite existsb_exists, list_elem_of_In. split.
  - intros (y & Hin & Heq). by apply String.eqb_eq in Heq as ->.
  - intros Hin. exists x. split; [done|]. apply String.eqb_refl.
Qed.

Lemma elem_false (x : string) (l : list string) : x ∉ l → elem x l = false.
Proof.
  intros Hnot. destruct (elem x l) eqn:Helem; [|done].
  by apply elem_spec in Helem.
Qed.

Section PureCalls.
Context {S : Type}.

Lemma pure_ret {A : Type} (a : A) : Pure (S := S) (ret a).
Proof. by intros s. Qed.

Lemma pure_throw {A : Type} (e : Exception) : Pure (S := S) (A := A) (throw e).
Proof. by intros s. Qed.

Lemma pure_liftOutcome {A : Type} (r : Outcome A) :
  Pure (S := S) (liftOutcome r).
Proof. by intros s. Qed.

Lemma pure_gets {A : Type} (f : S → A) : Pure (gets f).
Proof. by intros s. Qed.

Lemma pure_bind {A B : Type} (m : Async S A) (k : A → Async S B) :
  Pure m → (∀ a, Pure (k a)) → Pure (bind m k).
Proof.
  intros Hm Hk s. unfold bind. specialize (Hm s).
  destruct (m s) as [[a|e] s1]; simpl in *; subst; [apply Hk | done].
Qed.
End PureCalls.

Create HintDb pure.
#[local] Hint Resolve pure_ret pure_throw pure_liftOutcome pure_gets : pure.

Section Routing.
Context {C P : Type} `{!ChainService C} `{!PreferenceService P} `{!Imports}.

Lemma pure_getActiveOrDefaultNetwork (origin : string) :
  Pure (S := Service C P) (getActiveOrDefaultNetwork origin).
Proof. intros s. apply getActiveOrDefaultNetwork_read_only. Qed.

Lemma pure_signTransaction (transactionRequest : JsVal) (origin : string) :
  Pure (S := Service C P) (signTransaction transactionRequest origin).
Proof.
  unfold signTransaction.
  repeat (apply pure_bind; [auto with pure | intros ?]).
  destruct (isUndefined _); [auto with pure|].
  apply pure_bind; [apply pure_getActiveOrDefaultNetwork | auto with pure].
Qed.

Lemma pure_signData (input account : JsVal) (origin : string) :
  Pure (S := Service C P) (signData input account origin).
Proof.
  unfold signData. destruct input; auto with pure.
  apply pure_bind; [auto with pure | intros ?].
  apply pure_bind; [apply pure_getActiveOrDefaultNetwork | auto with pure].
Qed.

Lemma pure_signing_route (method : string) (params : list JsVal)
    (origin : string) :
  method ∈ signingMethods →
  Pure (S := Service C P) (routeSafeRPCRequest method params origin).
Proof.
  intros Hmethod.
  unfold signingMethods in Hmethod.
  apply elem_of_app in Hmethod as [Hmethod | Hmethod].
  - rewrite route_signTypedData by done.
    apply pure_bind; [apply pure_getActiveOrDefaultNetwork | intros ?].
    apply pure_bind; [auto with pure | intros ?].
    apply pure_bind; [unfold signTypedData | intros ?]; auto with pure.
  - simpl in Hmethod. each_method Hmethod.
    + rewrite route_eth_sendTransaction.
      apply pure_bind; [apply pure_signTransaction | auto with pure].
    + rewrite route_eth_signTransaction.
      apply pure_bind; [apply pure_signTransaction | auto with pure].
    + rewrite route_eth_sign.
      apply pure_bind; [apply pure_signData | auto with pure].
    + rewrite route_personal_sign.
      apply pure_bind; [apply pure_signData | auto with pure].
Qed.

(** X1. Routing a signing method has no effect on the service: nothing is
    stored, and the gateway is not contacted, before the user decides. *)
Theorem signing_request_has_no_side_effect
    (method : string) (params : list JsVal) (origin : string)
    (s : Service C P) :
  method ∈ signingMethods →
  (routeSafeRPCRequest method params origin s).2 = s.
Proof. intros Hmethod. by apply pure_signing_route. Qed.

(** *** Methods without a case of their own *)

Lemma route_unsupported (method : string) (params : list JsVal)
    (origin : string) :
  method ∉ supportedMethods →
  routeSafeRPCRequest method params origin
  = throw (EIP1193Error unsupportedMethod).
Proof.
  intros Hnot. unfold supportedMethods, transactionMethods in Hnot.
  rewrite !not_elem_of_app in Hnot.
  destruct Hnot as (Htyped & Hchain & Hpass & Haccounts & Htx & Hsign & Hswitch).
  rewrite !not_elem_of_cons in *.
  destruct Hchain as [Hchain _], Haccounts as [Haccounts _],
    Htx as (Hsend & HsignTx & _), Hsign as (Hsign & Hpersonal & _).
  unfold routeSafeRPCRequest.
  rewrite !elem_false by done.
  apply String.eqb_neq in Hchain as ->.
  apply String.eqb_neq in Haccounts as ->.
  apply String.eqb_neq in Hsend as ->.
  apply String.eqb_neq in HsignTx as ->.
  apply String.eqb_neq in Hsign as ->.
  by apply String.eqb_neq in Hpersonal as ->.
Qed.

Lemma listed_unsupported_not_supported (method : string) :
  method ∈ listedUnsupportedMethods → method ∉ supportedMethods.
Proof.
  intros Hlisted Hsupported.
  apply elem_spec in Hsupported.
  each_method Hlisted; vm_compute in Hsupported; discriminate.
Qed.

(** X2. A method that has no case of its own, whether the switch lists it
    among the unsupported ones or not at all, fails with the
    unsupported-method error and leaves the service as it was. *)
Theorem unsupported_method_throws
    (method : string) (params : list JsVal) (origin : string)
    (s : Service C P) :
  method ∈ listedUnsupportedMethods ∨ method ∉ supportedMethods →
  routeSafeRPCRequest method params origin s
  = (Thrown (EIP1193Error unsupportedMethod), s).
Proof.
  intros Hmethod.
  assert (Hnot : method ∉ supportedMethods).
  { destruct Hmethod; [by apply listed_unsupported_not_supported | done]. }
  by rewrite route_unsupported.
Qed.

(** *** What the user's decision sets off *)

Lemma invoke_first (first : Decision) (later : list Decision) :
  fold_left invoke (first :: later) Pending = invoke Pending first.
Proof. simpl. apply invoke_all_settled, invoke_pending_settles. Qed.

Lemma bind_returns_awaiting {A : Type} (m : Async (Service C P) A)
    (k : A → DAppRequestEvent) (next next' : Then) (s s' : Service C P)
    (request : DAppRequestEvent) :
  Pure m →
  bind m (fun a => ret (AwaitingUser (k a) next)) s
  = (Returned (AwaitingUser request next'), s') →
  next' = next ∧ s' = s.
Proof.
  intros Hpure. unfold bind, ret. specialize (Hpure s).
  destruct (m s) as [[a|x] s1]; [|done]. simpl in Hpure. subst s1.
  by intros [= _ <- <-].
Qed.

(** X3. An [eth_sendTransaction] request that was handed to the user:
    while no decision is made the caller keeps waiting; after the rejecter
    the caller gets a rejection and the gateway is not contacted; after the
    resolver the signed transaction is broadcast once and its hash is
    returned, or the failure of the broadcast. *)
Theorem send_broadcasts_after_approval_only
    (params : list JsVal) (origin : string) (s s1 : Service C P)
    (request : DAppRequestEvent) (next : Then) (later : list Decision) :
  routeSafeRPCRequest "eth_sendTransaction" params origin s
  = (Returned (AwaitingUser request next), s1) →
  awaitRoute "eth_sendTransaction" params origin [] s = (None, s)
  ∧ awaitRoute "eth_sendTransaction" params origin (callRejecter :: later) s
    = (Some (Thrown (Rejection JUndefined)), s)
  ∧ ∀ signed,
      awaitRoute "eth_sendTransaction" params origin
        (callResolver signed :: later) s
      = match broadcastSignedTransaction signed (chainService s) with
        | (Returned _, c) =>
            (Some (getField signed "hash"), setChain (fun _ => c) s)
        | (Thrown e, c) => (Some (Thrown e), setChain (fun _ => c) s)
        end.
Proof.
  intros Hroute.
  assert (Hnext : next = ThenBroadcast ∧ s1 = s).
  { rewrite route_eth_sendTransaction in Hroute.
    apply (bind_returns_awaiting _ (fun r => r)) in Hroute; [done|].
    apply pure_signTransaction. }
  destruct Hnext as [-> ->].
  unfold awaitRoute. rewrite Hroute. unfold observed.
  split; [done|]. split.
  - by rewrite invoke_first.
  - intros signed. rewrite invoke_first. simpl.
    unfold bind, onChain, liftOutcome.
    by destruct (broadcastSignedTransaction signed (chainService s))
      as [[[]|e] c].
Qed.

Lemma awaitRoute_pure (method : string) (params : list JsVal)
    (origin : string) (ui : list Decision) (s : Service C P) :
  Pure (routeSafeRPCRequest method params origin) →
  (∀ request next s',
      routeSafeRPCRequest method params origin s
      = (Returned (AwaitingUser request next), s') →
      next ≠ ThenBroadcast) →
  (awaitRoute method params origin ui s).2 = s.
Proof.
  intros Hpure Hnext. unfold awaitRoute. specialize (Hpure s).
  destruct (routeSafeRPCRequest method params origin s) as [[routed|x] s1]
    eqn:Hroute; simpl in Hpure; subst s1; [|done].
  destruct routed as [v|request next]; simpl; [done|].
  destruct (fold_left invoke ui Pending) as [|signed|reason]; simpl;
    [done| |done].
  specialize (Hnext request next s eq_refl).
  destruct next; simpl; [done| |done].
  unfold liftOutcome. by destruct (serializeSignedTransaction signed).
Qed.

(** X4. Of the signing methods only [eth_sendTransaction] ever reaches the
    gateway: for every other one, whatever the user interface does with the
    approval, the service is left as it was. *)
Theorem only_send_reaches_gateway_after_approval
    (method : string) (params : list JsVal) (origin : string)
    (ui : list Decision) (s : Service C P) :
  method ∈ signingMethods →
  method ≠ "eth_sendTransaction" →
  (awaitRoute method params origin ui s).2 = s.
Proof.
  intros Hmethod Hsend. apply awaitRoute_pure.
  - by apply pure_signing_route.
  - intros request next s'. unfold signingMethods in Hmethod.
    apply elem_of_app in Hmethod as [Hmethod | Hmethod].
    + rewrite route_signTypedData by done.
      unfold bind, signTypedData, liftOutcome, ret.
      destruct (getActiveOrDefaultNetwork origin s) as [[n|x] s1]; [|done].
      destruct (JSON_parse (param params 1)) as [typed|x]; [|done].
      by intros [= _ <- _].
    + simpl in Hmethod. each_method Hmethod; [done|..].
      * rewrite route_eth_signTransaction.
        intros [-> _]%(bind_returns_awaiting _ (fun r => r));
          [done | apply pure_signTransaction].
      * rewrite route_eth_sign.
        intros [-> _]%(bind_returns_awaiting _ (fun r => r));
          [done | apply pure_signData].
      * rewrite route_personal_sign.
        intros [-> _]%(bind_returns_awaiting _ (fun r => r));
          [done | apply pure_signData].
Qed.

(** X5. [eth_sign] takes the account first and the message second,
    [personal_sign] the other way round: with the two swapped the requests
    are routed alike. *)
Theorem eth_sign_is_personal_sign_swapped
    (account message : JsVal) (rest rest' : list JsVal) (origin : string)
    (s : Service C P) :
  routeSafeRPCRequest "eth_sign" (account :: message :: rest) origin s
  = routeSafeRPCRequest "personal_sign" (message :: account :: rest') origin s.
Proof. by rewrite route_eth_sign, route_personal_sign. Qed.

(** *** The request emitted for a transaction *)

(** X6. Whenever [signTransaction] emits a request, the service is
    unchanged, the payload has a sender that is not [undefined], and its
    network is the one the origin resolves to. *)
Theorem emitted_transaction_has_sender_and_network
    (transactionRequest : JsVal) (origin : string) (s s' : Service C P)
    (request : DAppRequestEvent) :
  signTransaction transactionRequest origin s = (Returned request, s') →
  s' = s
  ∧ event request = transactionSignatureRequest
  ∧ (∃ sender, payload request !! "from" = Some sender
               ∧ sender ≠ JUndefined)
  ∧ ∃ n, getActiveOrDefaultNetwork origin s = (Returned n, s)
         ∧ payload request !! "network" = Some (networkToJs n).
Proof.
  intros Hrun.
  assert (Hs : s' = s).
  { pose proof (pure_signTransaction transactionRequest origin s) as Hpure.
    by rewrite Hrun in Hpure. }
  subst s'. split; [done|]. revert Hrun.
  unfold signTransaction, bind, liftOutcome, ret, throw.
  destruct (annotationOf transactionRequest origin) as [annotation|x];
    [|done].
  destruct (ethersRequestOf transactionRequest) as [e|x]; [|done].
  destruct (transactionRequestFromEthersTransactionRequest e) as [c|x];
    [|done].
  destruct (isUndefined (getProp c "from")) eqn:Hfrom; [done|].
  destruct (getActiveOrDefaultNetwork origin s) as [[net|x] s1] eqn:Hnet;
    [|done].
  pose proof (pure_getActiveOrDefaultNetwork origin s) as Hpure.
  rewrite Hnet in Hpure; simpl in Hpure; subst s1.
  intros [= <-]; simpl; unfold spreadThen. split; [done|]. split.
  - exists (getProp c "from"). split.
    + do 2 (rewrite lookup_insert_ne by done). by rewrite lookup_insert_eq.
    + intros Hundefined. by rewrite Hundefined in Hfrom.
  - exists net. split; [done|].
    rewrite lookup_insert_ne by done. by rewrite lookup_insert_eq.
Qed.

(** X7. For the internal origin an annotation that is present and not
    [undefined] is decoded: the emitted payload carries the decoded value,
    and a request whose annotation does not decode is not emitted at all. *)
Theorem internal_annotation_is_decoded
    (tr : JsObject) (a : JsVal) (s : Service C P) :
  tr !! "annotation" = Some a →
  a ≠ JUndefined →
  match decodeJSON a with
  | Returned decoded =>
      ∀ request s',
        signTransaction (JObj tr) TALLY_INTERNAL_ORIGIN s
        = (Returned request, s') →
        payload request !! "annotation" = Some decoded
  | Thrown e =>
      signTransaction (JObj tr) TALLY_INTERNAL_ORIGIN s = (Thrown e, s)
  end.
Proof.
  intros Hannotation Hdefined.
  assert (Hof : annotationOf (JObj tr) TALLY_INTERNAL_ORIGIN = decodeJSON a).
  { unfold annotationOf, inOperator, hasProp, getField, getProp.
    rewrite String.eqb_refl, Hannotation; simpl.
    by destruct a. }
  destruct (decodeJSON a) as [decoded|e] eqn:Hdecode.
  - intros request s' Hrun.
    apply signTransaction_annotation in Hrun as (annotation & Ha & ->).
    rewrite Hof in Ha. by injection Ha as <-.
  - unfold signTransaction, bind, liftOutcome. by rewrite Hof.
Qed.

(** *** The per-origin table *)

Lemma keeps_of_pure {A : Type} (m : Async (Service C P) A) :
  Pure m → KeepsTable m.
Proof. intros Hpure s. by rewrite Hpure. Qed.

Lemma keeps_bind {A B : Type} (m : Async (Service C P) A)
    (k : A → Async (Service C P) B) :
  KeepsTable m → (∀ a, KeepsTable (k a)) → KeepsTable (bind m k).
Proof.
  intros Hm Hk s. unfold bind. specialize (Hm s).
  destruct (m s) as [[a|e] s1]; simpl in *; [|done].
  by rewrite Hk.
Qed.

Lemma keeps_onChain {A : Type} (m : Async C A) :
  KeepsTable (P := P) (onChain m).
Proof. intros s. unfold onChain. by destruct (m (chainService s)). Qed.

Lemma keeps_onPreferences {A : Type} (m : Async P A) :
  KeepsTable (C := C) (onPreferences m).
Proof.
  intros s. unfold onPreferences. by destruct (m (preferenceService s)).
Qed.

Lemma pure_signTypedData (params : JsObject) :
  Pure (S := Service C P) (signTypedData params).
Proof. by intros s. Qed.

(** X8. Only the chain-switch methods write the per-origin table: routing
    any other method, supported or not, leaves every row as it was. *)
Theorem only_chain_switch_writes_table
    (method : string) (params : list JsVal) (origin : string)
    (s : Service C P) :
  method ∉ chainSwitchMethods →
  db (routeSafeRPCRequest method params origin s).2 = db s.
Proof.
  intros Hmethod. revert s.
  change (KeepsTable (routeSafeRPCRequest method params origin)).
  unfold routeSafeRPCRequest.
  rewrite (elem_false _ chainSwitchMethods) by done.
  repeat match goal with
         | |- KeepsTable (if ?c then _ else _) => destruct c
         end;
    repeat first
      [ apply keeps_onChain
      | apply keeps_onPreferences
      | apply keeps_of_pure;
        first [ apply pure_getActiveOrDefaultNetwork
              | apply pure_signTransaction
              | apply pure_signData
              | apply pure_signTypedData
              | solve [auto with pure] ]
      | apply keeps_bind; [|intros ?] ].
Qed.

Lemma route_eth_chainId (params : list JsVal) (origin : string) :
  routeSafeRPCRequest "eth_chainId" params origin
  = bind (getActiveOrDefaultNetwork origin)
      (fun n => ret (Value (JStr (toHexChainID (JStr (chainID n)))))).
Proof. reflexivity. Qed.

(** The answer to [eth_chainId] is read off the table. *)
Lemma eth_chainId_reads_table (params : list JsVal) (origin : string)
    (s1 s2 : Service C P) :
  db s1 = db s2 →
  (routeSafeRPCRequest "eth_chainId" params origin s1).1
  = (routeSafeRPCRequest "eth_chainId" params origin s2).1.
Proof.
  intros Hdb. rewrite route_eth_chainId. unfold bind.
  destruct (db s2 !! origin) as [row|] eqn:Hrow.
  - rewrite (getActiveOrDefaultNetwork_selected origin s1 row)
      by (by rewrite Hdb).
    by rewrite (getActiveOrDefaultNetwork_selected origin s2 row).
  - rewrite !getActiveOrDefaultNetwork_unselected by (by rewrite ?Hdb).
    rewrite Hdb. by destruct (db s2 !! TALLY_INTERNAL_ORIGIN).
Qed.

(** X9. Switch, then read: after a chain-switch request of an origin has
    returned, its result is [null], the origin has a row, and [eth_chainId]
    from that origin returns the hex chain id of the network in that row. *)
Theorem switch_then_eth_chainId
    (method : string) (params : list JsVal) (origin : string)
    (s s' : Service C P) (r : Routed) :
  method ∈ chainSwitchMethods →
  routeSafeRPCRequest method params origin s = (Returned r, s') →
  r = Value JNull
  ∧ ∃ n, db s' !! origin = Some {| origin := origin; network := n |}
         ∧ ∀ params',
             routeSafeRPCRequest "eth_chainId" params' origin s'
             = (Returned (Value (JStr (toHexChainID (JStr (chainID n))))),
                s').
Proof.
  intros Hmethod. rewrite chain_switch_route by done.
  unfold bind, liftOutcome, modify, ret, throw.
  destruct (getField (param params 0) "chainId") as [chainId|x]; [|done].
  destruct (getActiveNetworkByChainId chainId s) as [[[n|]|x] s1];
    [|done|done].
  intros [= <- <-]. split; [done|]. exists n.
  assert (Hrow : db (setDb (setActiveChainIdForOrigin origin n) s1) !! origin
                 = Some {| origin := origin; network := n |}).
  { unfold setDb, setActiveChainIdForOrigin; simpl. apply lookup_insert_eq. }
  split; [done|]. intros params'.
  rewrite route_eth_chainId. unfold bind.
  by rewrite (getActiveOrDefaultNetwork_selected _ _ _ Hrow).
Qed.

(** X10. A chain-switch request that fails, for whatever reason, leaves
    the table as it was, so every origin gets the same answer to
    [eth_chainId] as before. *)
Theorem failed_switch_keeps_eth_chainId
    (method : string) (params : list JsVal) (origin : string)
    (s s' : Service C P) (e : Exception) :
  method ∈ chainSwitchMethods →
  routeSafeRPCRequest method params origin s = (Thrown e, s') →
  db s' = db s
  ∧ ∀ o params',
      (routeSafeRPCRequest "eth_chainId" params' o s').1
      = (routeSafeRPCRequest "eth_chainId" params' o s).1.
Proof.
  intros Hmethod Hroute.
  assert (Hdb : db s' = db s).
  { revert Hroute. rewrite chain_switch_route by done.
    unfold bind, liftOutcome, modify, ret, throw.
    destruct (getField (param params 0) "chainId") as [chainId|x];
      [|by intros [= _ <-]].
    pose proof (getActiveNetworkByChainId_keeps_table chainId s) as Hkeep.
    destruct (getActiveNetworkByChainId chainId s) as [[[n|]|x] s1];
      simpl in Hkeep; [done| |]; by intros [= _ <-]. }
  split; [done|]. intros o params'. by apply eth_chainId_reads_table.
Qed.

(** *** Pass-through methods *)

Lemma route_passThrough (method : string) (params : list JsVal)
    (origin : string) :
  method ∈ passThroughMethods →
  routeSafeRPCRequest method params origin
  = bind (getActiveOrDefaultNetwork origin)
      (fun n => bind (onChain (send method params n))
                     (fun result => ret (Value result))).
Proof. intros Hmethod. each_method Hmethod; reflexivity. Qed.

(** X11. A pass-through method is sent to the gateway once, with its name
    and parameters as they came, for the network the origin resolves to,
    and the answer of the gateway is returned as it is; when the network
    cannot be resolved the gateway is not contacted. *)
Theorem pass_through_forwards_to_resolved_network
    (method : string) (params : list JsVal) (origin : string)
    (s : Service C P) :
  method ∈ passThroughMethods →
  routeSafeRPCRequest method params origin s
  = match getActiveOrDefaultNetwork origin s with
    | (Returned n, _) =>
        match send method params n (chainService s) with
        | (Returned answer, c) =>
            (Returned (Value answer), setChain (fun _ => c) s)
        | (Thrown e, c) => (Thrown e, setChain (fun _ => c) s)
        end
    | (Thrown e, _) => (Thrown e, s)
    end.
Proof.
  intros Hmethod. rewrite route_passThrough by done. unfold bind.
  pose proof (pure_getActiveOrDefaultNetwork origin s) as Hpure.
  destruct (getActiveOrDefaultNetwork origin s) as [[n|x] s1];
    simpl in Hpure; subst s1; [|done].
  unfold onChain.
  by destruct (send method params n (chainService s)) as [[answer|x] c].
Qed.

(** *** Requests without parameters *)

(** X12. [eth_sendTransaction] spreads its first parameter, so a missing
    one, [null], a number or a boolean is treated as the empty request;
    [eth_signTransaction] reads its first parameter as it is and fails
    with a type error when there is none. *)
Theorem transaction_without_parameters
    (origin : string) (s : Service C P) :
  (∀ v rest,
      v = JUndefined ∨ v = JNull ∨ (∃ b, v = JBool b) ∨ (∃ n, v = JNum n) →
      routeSafeRPCRequest "eth_sendTransaction" (v :: rest) origin s
      = routeSafeRPCRequest "eth_sendTransaction" [JObj ∅] origin s)
  ∧ routeSafeRPCRequest "eth_sendTransaction" [] origin s
    = routeSafeRPCRequest "eth_sendTransaction" [JObj ∅] origin s
  ∧ ∃ what,
      routeSafeRPCRequest "eth_signTransaction" [] origin s
      = (Thrown (TypeError what), s).
Proof.
  split; [|split].
  - intros v rest Hv. rewrite !route_eth_sendTransaction.
    by destruct Hv as [-> | [-> | [[b ->] | [n ->]]]].
  - by rewrite !route_eth_sendTransaction.
  - rewrite route_eth_signTransaction.
    unfold bind, signTransaction, liftOutcome, param, annotationOf; simpl.
    destruct (String.eqb origin TALLY_INTERNAL_ORIGIN); simpl; eauto.
Qed.

(** *** Message signing *)

(** X13. [signData] on a string: the fields that [parseSigningData]
    returns are spread last, so they are in the payload as they are; under
    them lie [rawSigningData] (the text itself when it is a hex string,
    its hexlified bytes otherwise) and the account with the network of the
    origin. An input that is not a string emits nothing. *)
Theorem signData_payload
    (input account : JsVal) (origin : string) (s s' : Service C P)
    (request : DAppRequestEvent) :
  signData input account origin s = (Returned request, s') →
  ∃ text typeAndData n,
    input = JStr text
    ∧ parseSigningData text = Returned typeAndData
    ∧ getActiveOrDefaultNetwork origin s = (Returned n, s')
    ∧ event request = signDataRequest
    ∧ (∀ k v, typeAndData !! k = Some v → payload request !! k = Some v)
    ∧ (typeAndData !! "rawSigningData" = None →
       payload request !! "rawSigningData"
       = Some (JStr (if matchesHexString text then text
                     else hexlifyUtf8 text)))
    ∧ (typeAndData !! "account" = None →
       payload request !! "account"
       = Some (JObj (<[ "address" := account ]>
                     (<[ "network" := networkToJs n ]> ∅)))).
Proof.
  unfold signData.
  destruct input as [| | | |text| |]; try done.
  unfold bind, liftOutcome, ret.
  destruct (parseSigningData text) as [typeAndData|x] eqn:Hparse; [|done].
  destruct (getActiveOrDefaultNetwork origin s) as [[n|x] s1] eqn:Hnet;
    [|done].
  intros [= <- <-]. exists text, typeAndData, n. simpl.
  split_and!; try done.
  - intros k v Hk. by apply lookup_union_Some_l.
  - intros Hnone. rewrite lookup_union_r by done.
    by rewrite lookup_insert_eq.
  - intros Hnone. rewrite lookup_union_r by done.
    rewrite lookup_insert_ne by done. by rewrite lookup_insert_eq.
Qed.

(** *** Responses on the internal port *)

(** X14. One message on the internal port gets at most one response, and
    it carries the id of the message; no response is posted exactly when
    the request was handed to the user and no decision has been made. *)
Theorem internal_port_posts_at_most_one_response
    (eventId : JsVal) (method : string) (params : list JsVal)
    (ui : list Decision) (s : Service C P) :
  (length (onInternalMessage eventId method params ui s).1 ≤ 1)%nat
  ∧ (∀ r, r ∈ (onInternalMessage eventId method params ui s).1 →
          responseId r = eventId)
  ∧ ((onInternalMessage eventId method params ui s).1 = [] ↔
     ui = []
     ∧ ∃ request next,
         (routeSafeRPCRequest method params TALLY_INTERNAL_ORIGIN s).1
         = Returned (AwaitingUser request next)).
Proof.
  unfold onInternalMessage, awaitRoute.
  destruct (routeSafeRPCRequest method params TALLY_INTERNAL_ORIGIN s)
    as [[[v|request next]|x] s1]; simpl.
  - split_and!; [lia | by intros r ->%list_elem_of_singleton | ].
    split; [done|]. by intros (_ & ? & ? & ?).
  - destruct ui as [|first later].
    + simpl. split_and!; [lia | by intros r ?%elem_of_nil | ].
      split; eauto.
    + rewrite invoke_first.
      destruct first as [signed|]; simpl.
      * destruct (andThen next signed s1) as [[v|x] s2]; simpl;
          (split_and!; [lia | by intros r ->%list_elem_of_singleton | ]);
          (split; [done | by intros [? _]]).
      * split_and!; [lia | by intros r ->%list_elem_of_singleton | ].
        split; [done | by intros [? _]].
  - split_and!; [lia | by intros r ->%list_elem_of_singleton | ].
    split; [done|]. by intros (_ & ? & ? & ?).
Qed.
(** *** Methods that share a case *)

(** X15. [wallet_addEthereumChain] is [wallet_switchEthereumChain]: of the
    first parameter only [chainId] is read, so the description of a chain
    to add is ignored and the two methods are routed alike. *)
Theorem addEthereumChain_is_switch
    (p1 p2 : JsVal) (rest1 rest2 : list JsVal) (origin : string)
    (s : Service C P) :
  getField p1 "chainId" = getField p2 "chainId" →
  routeSafeRPCRequest "wallet_addEthereumChain" (p1 :: rest1) origin s
  = routeSafeRPCRequest "wallet_switchEthereumChain" (p2 :: rest2) origin s.
Proof.
  intros Hsame.
  rewrite !chain_switch_route by (by repeat constructor).
  unfold param; simpl. by rewrite Hsame.
Qed.

(** X16. The four [eth_signTypedData] methods are one: the version in the
    method name has no effect on the request that is emitted. *)
Theorem signTypedData_versions_agree
    (m1 m2 : string) (params : list JsVal) (origin : string)
    (s : Service C P) :
  m1 ∈ signTypedDataMethods →
  m2 ∈ signTypedDataMethods →
  routeSafeRPCRequest m1 params origin s
  = routeSafeRPCRequest m2 params origin s.
Proof. intros H1 H2. by rewrite !route_signTypedData. Qed.
End Routing.

(** * Further properties of the WalletConnect bridge *)

Lemma length_flat_map_map {A B D : Type} (f : A → B → D) (xs : list A)
    (ys : list B) :
  length (flat_map (fun x => map (f x) ys) xs) = (length xs * length ys)%nat.
Proof.
  induction xs as [|x xs IH]; simpl; [done|].
  by rewrite length_app, length_map, IH.
Qed.

Section Sessions.
Variable relay : SignClientCall → Outcome unit.
Variable templateText : JsVal → string.
Variable isEIP1193Error : JsVal → bool.

(** X17. A proposal with an [eip155] requirement, on a sign client that is
    there and with at least one relay: the one namespace approved is
    [eip155], with the required methods and events and one account
    [chain:account] for every required chain and every selected account;
    the approval goes to the first relay, the acknowledgement is awaited
    only when the approval went through, and no rejection is sent. *)
Theorem proposal_with_eip155_is_approved
    (proposal : SessionProposal) (selectedAccounts : list JsVal)
    (w : WalletConnect) (ethNamespace : ProposalNamespace)
    (calls : list SignClientCall) (first : Relay) (rest : list Relay) :
  requiredNamespaces proposal !! "eip155" = Some ethNamespace →
  signClient w = Some calls →
  relays proposal = first :: rest →
  ∃ approved : SessionNamespace,
    callsOf
      (acknowledgeProposal relay templateText proposal selectedAccounts w).2
    = (calls
       ++ approveCall (proposalId proposal) (protocol first)
            (<[ "eip155" := approved ]> ∅)
          :: match
               relay (approveCall (proposalId proposal) (protocol first)
                        (<[ "eip155" := approved ]> ∅))
             with
             | Returned _ => [acknowledgedCall (proposalId proposal)]
             | Thrown _ => []
             end)%list
    ∧ sessionMethods approved = methods ethNamespace
    ∧ sessionEvents approved = events ethNamespace
    ∧ length (accounts approved)
      = (length (chains ethNamespace) * length selectedAccounts)%nat
    ∧ ∀ chain acc,
        chain ∈ chains ethNamespace →
        acc ∈ selectedAccounts →
        (chain ++ ":" ++ templateText acc) ∈ accounts approved.
Proof.
  intros Hnamespace Hclient Hrelays.
  unfold acknowledgeProposal, ethNamespaceKey.
  rewrite Hnamespace, Hclient, Hrelays.
  exists {| accounts :=
              flat_map
                (fun chain =>
                   map (fun acc => chain ++ ":" ++ templateText acc)
                       selectedAccounts)
                (chains ethNamespace);
            sessionMethods := methods ethNamespace;
            sessionEvents := events ethNamespace |}.
  split_and!; simpl; [|done|done|apply length_flat_map_map|].
  - unfold bind, onSignClient, callsOf. rewrite Hclient; simpl.
    destruct (relay _); simpl; [|done].
    by rewrite <- app_assoc.
  - intros chain acc Hchain Hacc.
    apply list_elem_of_In, in_flat_map. exists chain.
    split; [by apply list_elem_of_In|].
    apply in_map_iff. exists acc. split; [done|].
    by apply list_elem_of_In.
Qed.

(** X18. Without a relay in the proposal, or without a sign client,
    acknowledging is rejecting even when the proposal requires [eip155]:
    no approval is sent, and without a client nothing is sent at all. *)
Theorem proposal_without_relay_or_client_is_rejected
    (proposal : SessionProposal) (selectedAccounts : list JsVal)
    (w : WalletConnect) :
  relays proposal = [] ∨ signClient w = None →
  acknowledgeProposal relay templateText proposal selectedAccounts w
  = rejectProposal relay (proposalId proposal) w
  ∧ (signClient w = None →
     acknowledgeProposal relay templateText proposal selectedAccounts w
     = (Returned tt, w)).
Proof.
  intros Hmissing.
  assert (Hreject :
    acknowledgeProposal relay templateText proposal selectedAccounts w
    = rejectProposal relay (proposalId proposal) w).
  { unfold acknowledgeProposal.
    destruct (requiredNamespaces proposal !! ethNamespaceKey); [|done].
    destruct Hmissing as [-> | ->]; [by destruct (signClient w) | done]. }
  split; [done|]. intros Hnone. rewrite Hreject.
  unfold rejectProposal. by rewrite Hnone.
Qed.

Lemma onProposalMessage_senderUrl (proposal : SessionProposal)
    (message : JsVal) (w : WalletConnect) :
  senderUrl
    (onProposalMessage relay templateText isEIP1193Error proposal message w).2
  = senderUrl w.
Proof.
  assert (Hreject : ∀ p, senderUrl (rejectProposal relay p w).2 = senderUrl w).
  { intros p. unfold rejectProposal, onSignClient.
    by destruct (signClient w). }
  assert (Hack : ∀ selected,
    senderUrl (acknowledgeProposal relay templateText proposal selected w).2
    = senderUrl w).
  { intros selected. unfold acknowledgeProposal.
    destruct (requiredNamespaces proposal !! ethNamespaceKey); [|done].
    destruct (signClient w) eqn:Hclient, (relays proposal); try done;
      try (specialize (Hreject (proposalId proposal));
           unfold rejectProposal in Hreject; by rewrite Hclient in Hreject).
    unfold bind, onSignClient. by destruct (relay _). }
  unfold onProposalMessage.
  destruct message as [| | | | |[|first rest]|];
    try (destruct (isEIP1193Error _); [apply Hreject | done]).
  apply Hack.
Qed.

Lemma sessionProposalListener_senderUrl (proposal : SessionProposal)
    (messages : list JsVal) (w : WalletConnect) :
  senderUrl
    (sessionProposalListener relay templateText isEIP1193Error proposal
       messages w)
  = proposerUrl proposal.
Proof.
  unfold sessionProposalListener.
  set (w1 := mkWalletConnect (signClient w) (proposerUrl proposal)).
  assert (Hw1 : senderUrl w1 = proposerUrl proposal) by done.
  destruct (String.eqb (senderUrl w1) EmptyString); [done|].
  rewrite <- Hw1. clear Hw1. generalize w1. clear w1.
  induction messages as [|m messages IH]; intros w1; simpl; [done|].
  rewrite IH. apply onProposalMessage_senderUrl.
Qed.

(** X19. After the listener of a proposal the sender URL of the bridge is
    the URL of the proposer, whatever reached the port; and when that URL
    is empty the proposal is dropped without a call on the sign client. *)
Theorem proposal_listener_sets_sender_url
    (proposal : SessionProposal) (messages : list JsVal) (w : WalletConnect) :
  senderUrl
    (sessionProposalListener relay templateText isEIP1193Error proposal
       messages w)
  = proposerUrl proposal
  ∧ (proposerUrl proposal = EmptyString →
     signClient
       (sessionProposalListener relay templateText isEIP1193Error proposal
          messages w)
     = signClient w).
Proof.
  split; [apply sessionProposalListener_senderUrl|].
  intros Hurl. unfold sessionProposalListener; simpl. by rewrite Hurl.
Qed.

(** X20. Results on the proposal port that are neither a non-empty array
    nor an EIP-1193 error (an empty account list, for one) are ignored:
    the proposal is neither approved nor rejected. *)
Theorem undecided_results_leave_proposal_open
    (proposal : SessionProposal) (messages : list JsVal) (w : WalletConnect) :
  Forall (fun m => (∀ item items, m ≠ JArr (item :: items))
                   ∧ isEIP1193Error m = false)
         messages →
  sessionProposalListener relay templateText isEIP1193Error proposal
    messages w
  = mkWalletConnect (signClient w) (proposerUrl proposal).
Proof.
  intros Hundecided. unfold sessionProposalListener.
  set (w1 := mkWalletConnect (signClient w) (proposerUrl proposal)).
  destruct (String.eqb (senderUrl w1) EmptyString); [done|].
  generalize w1. clear w1.
  induction Hundecided as [|m messages [Hnot Herror] _ IH]; intros w1;
    [done|].
  cbn [fold_left]. rewrite IH. unfold onProposalMessage.
  destruct m as [| | | | |[|item items]|]; rewrite ?Herror; try done.
  by destruct (Hnot item items).
Qed.

Variables SessionRequest LegacyEventData : Type.
Variable parseUri : string → Outcome JsVal.
Variable processRequestParams : SessionRequest → option TranslatedRequestParams.
Variable processLegacyRequestParams :
  LegacyEventData → option TranslatedRequestParams.
Variable approveEIP155Request : TranslatedRequestParams → JsVal → JsVal.
Variable rejectEIP155Request : TranslatedRequestParams → JsVal.
Variable answer : BridgeCall → Outcome unit.

(** X21. [performConnection] leaves the session state alone and makes at
    most one call: the legacy client for a version 1 URI, the pairing for
    a version 2 URI, and none when the sign client is missing, the URI does
    not parse or the version is another one. A failing call is caught. *)
Theorem performConnection_routes_by_version (uri : string) (b : Bridge) :
  walletConnect (performConnection parseUri answer uri b) = walletConnect b
  ∧ outbox (performConnection parseUri answer uri b)
    = (outbox b
       ++ match signClient (walletConnect b), parseUri uri with
          | Some _, Returned (JNum 1) => [createLegacySignClientCall uri]
          | Some _, Returned (JNum 2) => [pairCall uri]
          | _, _ => []
          end)%list.
Proof.
  unfold performConnection.
  destruct (signClient (walletConnect b)); [|by rewrite app_nil_r].
  unfold tryCatch, bind, liftOutcome, makeCall, ret.
  destruct (parseUri uri) as [version|x]; simpl; [|by rewrite app_nil_r].
  destruct version as [| | |n| | |]; simpl; try by rewrite app_nil_r.
  destruct n as [|[p|p|]|p]; simpl; try by rewrite app_nil_r.
  - destruct p; simpl; try by rewrite app_nil_r.
    by destruct (answer (pairCall uri)).
  - by destruct (answer (createLegacySignClientCall uri)).
Qed.

(** The response posted for one result on the request port. *)
Lemma onRequestMessage_outbox (isLegacy : bool) (r : TranslatedRequestParams)
    (message : JsVal) (b : Bridge) :
  walletConnect
    (onRequestMessage approveEIP155Request rejectEIP155Request isEIP1193Error
       answer isLegacy (Some r) message b).2
  = walletConnect b
  ∧ outbox
      (onRequestMessage approveEIP155Request rejectEIP155Request
         isEIP1193Error answer isLegacy (Some r) message b).2
    = (outbox b
       ++ answersTo approveEIP155Request rejectEIP155Request isEIP1193Error
            isLegacy (walletConnect b) r message)%list.
Proof.
  unfold onRequestMessage, postRejectionResponse, postApprovalResponse,
    respond, makeCall, answersTo.
  destruct (isEIP1193Error message), isLegacy; simpl; try done;
    destruct (signClient (walletConnect b)); simpl;
    by rewrite ?app_nil_r.
Qed.

Lemma onRequestMessages_outbox (isLegacy : bool) (r : TranslatedRequestParams)
    (messages : list JsVal) (b : Bridge) :
  walletConnect
    (fold_left
       (fun acc m =>
          (onRequestMessage approveEIP155Request rejectEIP155Request
             isEIP1193Error answer isLegacy (Some r) m acc).2)
       messages b)
  = walletConnect b
  ∧ outbox
      (fold_left
         (fun acc m =>
            (onRequestMessage approveEIP155Request rejectEIP155Request
               isEIP1193Error answer isLegacy (Some r) m acc).2)
         messages b)
    = (outbox b
       ++ flat_map
            (answersTo approveEIP155Request rejectEIP155Request
               isEIP1193Error isLegacy (walletConnect b) r)
            messages)%list.
Proof.
  revert b.
  induction messages as [|m messages IH]; intros b;
    cbn [fold_left flat_map].
  - by rewrite app_nil_r.
  - destruct (onRequestMessage_outbox isLegacy r m b) as [Hw Hout].
    destruct (IH (onRequestMessage approveEIP155Request rejectEIP155Request
                    isEIP1193Error answer isLegacy (Some r) m b).2)
      as [IHw IHout].
    split; [by rewrite IHw|].
    rewrite IHout, Hout, Hw. by rewrite <- app_assoc.
Qed.

(** What the request listener does, in full. *)
Lemma sessionRequestListener_outbox
    (isLegacy : bool) (event : option SessionRequest)
    (legacyEvent : option LegacyEventData) (messages : list JsVal)
    (b : Bridge) :
  match
    translateRequest processRequestParams processLegacyRequestParams
      isLegacy event legacyEvent
  with
  | None =>
      sessionRequestListener processRequestParams processLegacyRequestParams
        approveEIP155Request rejectEIP155Request isEIP1193Error answer
        isLegacy event legacyEvent messages b
      = b
  | Some r =>
      walletConnect
        (sessionRequestListener processRequestParams
           processLegacyRequestParams approveEIP155Request
           rejectEIP155Request isEIP1193Error answer isLegacy event
           legacyEvent messages b)
      = walletConnect b
      ∧ outbox
          (sessionRequestListener processRequestParams
             processLegacyRequestParams approveEIP155Request
             rejectEIP155Request isEIP1193Error answer isLegacy event
             legacyEvent messages b)
        = (outbox b
           ++ onMessageListenerCall (senderUrl (walletConnect b)) "1400" r
              :: flat_map
                   (answersTo approveEIP155Request rejectEIP155Request
                      isEIP1193Error isLegacy (walletConnect b) r)
                   messages)%list
  end.
Proof.
  unfold sessionRequestListener.
  destruct (translateRequest processRequestParams processLegacyRequestParams
              isLegacy event legacyEvent) as [r|]; [|done].
  destruct (onRequestMessages_outbox isLegacy r messages
              (makeCall answer
                 (onMessageListenerCall (senderUrl (walletConnect b))
                    "1400" r) b).2) as [Hw Hout].
  split; [by rewrite Hw|].
  rewrite Hout. simpl. by rewrite <- app_assoc.
Qed.

(** X22. A session request that does not translate is dropped: it is not
    handed to the provider bridge and nothing is posted. One that
    translates to [r] is handed to the provider bridge once, under the
    sender URL of the bridge and with id 1400, and then every result on the
    port is answered once, a rejection for an EIP-1193 error and an
    approval otherwise: through the legacy helper for a legacy request, by
    a respond call on the topic of [r] for a version 2 request (none while
    the sign client is missing). *)
Theorem session_request_is_forwarded_and_answered
    (isLegacy : bool) (event : option SessionRequest)
    (legacyEvent : option LegacyEventData) (messages : list JsVal)
    (b : Bridge) :
  match
    translateRequest processRequestParams processLegacyRequestParams
      isLegacy event legacyEvent
  with
  | None =>
      sessionRequestListener processRequestParams processLegacyRequestParams
        approveEIP155Request rejectEIP155Request isEIP1193Error answer
        isLegacy event legacyEvent messages b
      = b
  | Some r =>
      walletConnect
        (sessionRequestListener processRequestParams
           processLegacyRequestParams approveEIP155Request
           rejectEIP155Request isEIP1193Error answer isLegacy event
           legacyEvent messages b)
      = walletConnect b
      ∧ outbox
          (sessionRequestListener processRequestParams
             processLegacyRequestParams approveEIP155Request
             rejectEIP155Request isEIP1193Error answer isLegacy event
             legacyEvent messages b)
        = (outbox b
           ++ onMessageListenerCall (senderUrl (walletConnect b)) "1400" r
              :: flat_map
                   (answersTo approveEIP155Request rejectEIP155Request
                      isEIP1193Error isLegacy (walletConnect b) r)
                   messages)%list
  end.
Proof. apply sessionRequestListener_outbox. Qed.

(** X23. The two protocol versions do not cross: a legacy request never
    leads to a respond call of the version 2 client, and a version 2
    request never leads to a post through the legacy helper. *)
Theorem request_protocols_do_not_cross
    (isLegacy : bool) (event : option SessionRequest)
    (legacyEvent : option LegacyEventData) (messages : list JsVal)
    (b : Bridge) :
  let after :=
    sessionRequestListener processRequestParams processLegacyRequestParams
      approveEIP155Request rejectEIP155Request isEIP1193Error answer
      isLegacy event legacyEvent messages b in
  if isLegacy
  then List.filter isRespond (outbox after) = List.filter isRespond (outbox b)
  else List.filter isLegacyPost (outbox after)
       = List.filter isLegacyPost (outbox b).
Proof.
  intros after. subst after.
  destruct (translateRequest processRequestParams processLegacyRequestParams
              isLegacy event legacyEvent) as [r|] eqn:Htranslated.
  - pose proof (sessionRequestListener_outbox
                  isLegacy event legacyEvent messages b) as Hanswered.
    rewrite Htranslated in Hanswered. destruct Hanswered as [_ ->].
    destruct isLegacy; rewrite List.filter_app; simpl;
      rewrite <- (app_nil_r (List.filter _ (outbox b))) at 2; f_equal.
    + induction messages as [|m messages IH]; simpl; [done|].
      by destruct (isEIP1193Error m).
    + induction messages as [|m messages IH]; simpl; [done|].
      rewrite List.filter_app, IH. unfold answersTo.
      by destruct (signClient (walletConnect b)).
  - pose proof (sessionRequestListener_outbox
                  isLegacy event legacyEvent messages b) as Hdropped.
    rewrite Htranslated in Hdropped. rewrite Hdropped.
    by destruct isLegacy.
Qed.

(** X24. Requests are attributed to the last proposal: after the listener
    of a proposal has run, the next session request that translates is
    handed to the provider bridge under the URL of that proposer. *)
Theorem request_forwarded_under_last_proposer_url
    (proposal : SessionProposal) (proposalResults : list JsVal)
    (isLegacy : bool) (event : option SessionRequest)
    (legacyEvent : option LegacyEventData) (b : Bridge)
    (r : TranslatedRequestParams) :
  translateRequest processRequestParams processLegacyRequestParams
    isLegacy event legacyEvent = Some r →
  outbox
    (sessionRequestListener processRequestParams processLegacyRequestParams
       approveEIP155Request rejectEIP155Request isEIP1193Error answer
       isLegacy event legacyEvent []
       (mkBridge
          (sessionProposalListener relay templateText isEIP1193Error proposal
             proposalResults (walletConnect b))
          (outbox b)))
  = (outbox b ++ [onMessageListenerCall (proposerUrl proposal) "1400" r])%list.
Proof.
  intros Htranslated.
  pose proof (sessionRequestListener_outbox
                isLegacy event legacyEvent []
                (mkBridge
                   (sessionProposalListener relay templateText isEIP1193Error
                      proposal proposalResults (walletConnect b))
                   (outbox b))) as Hanswered.
  rewrite Htranslated in Hanswered. destruct Hanswered as [_ ->].
  simpl. by rewrite sessionProposalListener_senderUrl.
Qed.
End Sessions.

(** * The further properties on the sample collaborators *)

(** A method that the switch lists as unsupported, and one it does not
    know. *)
Lemma eth_coinbase_and_unknown_method_are_unsupported :
  routeSafeRPCRequest "eth_coinbase" [] Sample.dapp (Sample.started JNull)
  = (Thrown (EIP1193Error unsupportedMethod), Sample.started JNull)
  ∧ routeSafeRPCRequest "eth_teleport" [] Sample.dapp (Sample.started JNull)
    = (Thrown (EIP1193Error unsupportedMethod), Sample.started JNull).
Proof.
  split.
  - refine (unsupported_method_throws "eth_coinbase" [] Sample.dapp
              (Sample.started JNull) (or_introl _)).
    by repeat constructor.
  - refine (unsupported_method_throws "eth_teleport" [] Sample.dapp
              (Sample.started JNull) (or_intror _)).
    intros Hin%elem_spec. vm_compute in Hin. discriminate.
Defined.

(** A transaction request leaves the table alone. *)
Lemma send_keeps_table :
  db (routeSafeRPCRequest "eth_sendTransaction" [JObj Sample.transfer]
        Sample.dapp (Sample.started JNull)).2
  = db (Sample.started JNull).
Proof.
  refine (only_chain_switch_writes_table "eth_sendTransaction"
            [JObj Sample.transfer] Sample.dapp (Sample.started JNull) _).
  intros Hin%elem_spec. vm_compute in Hin. discriminate.
Defined.

(** A [personal_sign] request changes nothing. *)
Lemma personal_sign_has_no_side_effect :
  (routeSafeRPCRequest "personal_sign" [JStr "0x1234"; JStr "0xa11ce"]
     Sample.dapp (Sample.started JNull)).2
  = Sample.started JNull.
Proof.
  refine (signing_request_has_no_side_effect "personal_sign"
            [JStr "0x1234"; JStr "0xa11ce"] Sample.dapp
            (Sample.started JNull) _).
  unfold signingMethods. apply elem_of_app. right. by repeat constructor.
Defined.

(** The sample transfer, rejected and approved. *)
Lemma transfer_rejected_and_approved :
  awaitRoute "eth_sendTransaction" [JObj Sample.transfer] Sample.dapp
    [callRejecter] (Sample.started JNull)
  = (Some (Thrown (Rejection JUndefined)), Sample.started JNull)
  ∧ awaitRoute "eth_sendTransaction" [JObj Sample.transfer] Sample.dapp
      [callResolver (JObj (<[ "hash" := JStr "0x9fc7" ]> ∅))]
      (Sample.started JNull)
    = (Some (Returned (JStr "0x9fc7")), Sample.started JNull).
Proof.
  split.
  - refine (proj1 (proj2 (send_broadcasts_after_approval_only
                            [JObj Sample.transfer] Sample.dapp
                            (Sample.started JNull) _ _ _ [] eq_refl))).
  - refine (proj2 (proj2 (send_broadcasts_after_approval_only
                            [JObj Sample.transfer] Sample.dapp
                            (Sample.started JNull) _ _ _ [] eq_refl))
                  (JObj (<[ "hash" := JStr "0x9fc7" ]> ∅))).
Defined.

(** Signing the sample transfer without sending it. *)
Lemma signTransaction_leaves_gateway_alone :
  (awaitRoute "eth_signTransaction" [JObj Sample.transfer] Sample.dapp
     [callResolver (JObj ∅)] (Sample.started JNull)).2
  = Sample.started JNull.
Proof.
  refine (only_send_reaches_gateway_after_approval "eth_signTransaction"
            [JObj Sample.transfer] Sample.dapp [callResolver (JObj ∅)]
            (Sample.started JNull) _ _).
  - unfold signingMethods. apply elem_of_app. right. by repeat constructor.
  - discriminate.
Defined.

(** The request emitted for the sample transfer. *)
Lemma transfer_request_has_sender :
  ∃ request,
    (signTransaction (JObj Sample.transfer) Sample.dapp
       (Sample.started JNull)).1
    = Returned request
    ∧ event request = transactionSignatureRequest
    ∧ payload request !! "from" = Some (JStr "0xa11ce").
Proof.
  eexists. split; [reflexivity|].
  split; [|reflexivity].
  refine (proj1 (proj2 (emitted_transaction_has_sender_and_network
                          (JObj Sample.transfer) Sample.dapp
                          (Sample.started JNull) (Sample.started JNull)
                          _ eq_refl))).
Defined.

(** The internal origin annotates the sample transfer. *)
Lemma internal_transfer_is_annotated :
  ∃ request,
    (signTransaction
       (JObj (<[ "annotation" := JStr "{}" ]> Sample.transfer))
       TALLY_INTERNAL_ORIGIN (Sample.started JNull)).1
    = Returned request
    ∧ payload request !! "annotation" = Some (JStr "{}").
Proof.
  eexists. split; [reflexivity|].
  refine (internal_annotation_is_decoded
            (<[ "annotation" := JStr "{}" ]> Sample.transfer) (JStr "{}")
            (Sample.started JNull) _ _ _ (Sample.started JNull) eq_refl).
  - reflexivity.
  - discriminate.
Defined.

(** Switching the dapp to Polygon, then asking for the chain id. *)
Lemma polygon_switch_then_eth_chainId :
  ∃ n,
    db (routeSafeRPCRequest "wallet_switchEthereumChain"
          [JObj (<[ "chainId" := JStr "0x89" ]> ∅)] Sample.dapp
          (Sample.started JNull)).2 !! Sample.dapp
    = Some {| origin := Sample.dapp; network := n |}
    ∧ ∀ params',
        routeSafeRPCRequest "eth_chainId" params' Sample.dapp
          (routeSafeRPCRequest "wallet_switchEthereumChain"
             [JObj (<[ "chainId" := JStr "0x89" ]> ∅)] Sample.dapp
             (Sample.started JNull)).2
        = (Returned (Value (JStr (toHexChainID (JStr (chainID n))))),
           (routeSafeRPCRequest "wallet_switchEthereumChain"
              [JObj (<[ "chainId" := JStr "0x89" ]> ∅)] Sample.dapp
              (Sample.started JNull)).2).
Proof.
  refine (proj2 (switch_then_eth_chainId "wallet_switchEthereumChain"
                   [JObj (<[ "chainId" := JStr "0x89" ]> ∅)] Sample.dapp
                   (Sample.started JNull) _ (Value JNull) _ eq_refl)).
  by repeat constructor.
Defined.

(** A switch to the unknown chain 0x5 fails and nothing moves. *)
Lemma failed_switch_to_unknown_chain :
  db (routeSafeRPCRequest "wallet_switchEthereumChain"
        [JObj (<[ "chainId" := JStr "0x5" ]> ∅)] Sample.dapp
        (Sample.started JNull)).2
  = db (Sample.started JNull).
Proof.
  refine (proj1 (failed_switch_keeps_eth_chainId "wallet_switchEthereumChain"
                   [JObj (<[ "chainId" := JStr "0x5" ]> ∅)] Sample.dapp
                   (Sample.started JNull) _
                   (EIP1193Error chainDisconnected) _ eq_refl)).
  by repeat constructor.
Defined.

(** [eth_blockNumber] goes to the sample gateway. *)
Lemma eth_blockNumber_is_forwarded :
  routeSafeRPCRequest "eth_blockNumber" [] Sample.dapp (Sample.started JNull)
  = (Returned (Value JNull), Sample.started JNull).
Proof.
  refine (pass_through_forwards_to_resolved_network "eth_blockNumber" []
            Sample.dapp (Sample.started JNull) _).
  by repeat constructor.
Defined.

(** [eth_sign] of a hex message. *)
Lemma eth_sign_emits_signDataRequest :
  ∃ request,
    (signData (JStr "0x1234") (JStr "0xa11ce") Sample.dapp
       (Sample.started JNull)).1
    = Returned request
    ∧ event request = signDataRequest.
Proof.
  eexists. split; [reflexivity|].
  match goal with
  | |- event ?request = _ =>
      assert (Hrun : signData (JStr "0x1234") (JStr "0xa11ce") Sample.dapp
                       (Sample.started JNull)
                     = (Returned request, Sample.started JNull))
        by reflexivity
  end.
  destruct (signData_payload _ _ _ _ _ _ Hrun)
    as (text & typeAndData & n & _ & _ & _ & Hevent & _).
  exact Hevent.
Defined.

(** The sample proposal for two chains and one selected account. *)
Lemma evm_proposal_is_approved :
  ∃ approved,
    callsOf
      (acknowledgeProposal Sample.relayAccepts Sample.text
         SampleBridge.evmProposal [JStr "0xa11ce"] Sample.connected).2
    = [ approveCall 9 "irn" (<[ "eip155" := approved ]> ∅);
        acknowledgedCall 9 ]
    ∧ length (accounts approved) = 2%nat.
Proof.
  destruct (proposal_with_eip155_is_approved Sample.relayAccepts Sample.text
              SampleBridge.evmProposal [JStr "0xa11ce"] Sample.connected
              {| chains := ["eip155:1"; "eip155:137"];
                 methods := ["eth_sendTransaction"; "personal_sign"];
                 events := ["chainChanged"] |}
              [] {| protocol := "irn" |} [] eq_refl eq_refl eq_refl)
    as (approved & Hcalls & _ & _ & Hlength & _).
  exists approved. split; [exact Hcalls | exact Hlength].
Defined.

(** The sample proposal while the sign client is missing. *)
Lemma evm_proposal_without_client :
  acknowledgeProposal Sample.relayAccepts Sample.text
    SampleBridge.evmProposal [JStr "0xa11ce"]
    (mkWalletConnect None EmptyString)
  = (Returned tt, mkWalletConnect None EmptyString).
Proof.
  refine (proj2 (proposal_without_relay_or_client_is_rejected
                   Sample.relayAccepts Sample.text SampleBridge.evmProposal
                   [JStr "0xa11ce"] (mkWalletConnect None EmptyString)
                   (or_intror eq_refl)) eq_refl).
Defined.

(** An empty account list and a [null] on the proposal port. *)
Lemma empty_selection_leaves_proposal_open :
  sessionProposalListener Sample.relayAccepts Sample.text
    SampleBridge.isError SampleBridge.evmProposal [JArr []; JNull]
    Sample.connected
  = mkWalletConnect (Some []) "https://peer.example".
Proof.
  refine (undecided_results_leave_proposal_open Sample.relayAccepts
            Sample.text SampleBridge.isError SampleBridge.evmProposal
            [JArr []; JNull] Sample.connected _).
  repeat (constructor; [split; [intros ? ?; discriminate | reflexivity]|]).
  constructor.
Defined.

(** A request that follows the sample proposal. *)
Lemma request_after_evm_proposal :
  outbox
    (sessionRequestListener SampleBridge.translation SampleBridge.translation
       SampleBridge.approval SampleBridge.rejection SampleBridge.isError
       SampleBridge.accepts false (Some (Some SampleBridge.translated)) None
       []
       (mkBridge
          (sessionProposalListener Sample.relayAccepts Sample.text
             SampleBridge.isError SampleBridge.evmProposal []
             Sample.connected)
          []))
  = [ onMessageListenerCall "https://peer.example" "1400"
        SampleBridge.translated ].
Proof.
  refine (request_forwarded_under_last_proposer_url Sample.relayAccepts
            Sample.text SampleBridge.isError _ _ SampleBridge.translation
            SampleBridge.translation SampleBridge.approval
            SampleBridge.rejection SampleBridge.accepts
            SampleBridge.evmProposal [] false
            (Some (Some SampleBridge.translated)) None
            (mkBridge Sample.connected []) SampleBridge.translated _).
  reflexivity.
Defined.

(** Adding a chain with a full description against switching to it. *)
Lemma add_chain_description_is_ignored :
  routeSafeRPCRequest "wallet_addEthereumChain"
    [JObj (<[ "chainId" := JStr "0x89" ]>
           (<[ "chainName" := JStr "Polygon" ]>
              (<[ "rpcUrls" := JArr [JStr "https://rpc.example"] ]> ∅)))]
    Sample.dapp (Sample.started JNull)
  = routeSafeRPCRequest "wallet_switchEthereumChain"
      [JObj (<[ "chainId" := JStr "0x89" ]> ∅)] Sample.dapp
      (Sample.started JNull).
Proof.
  refine (addEthereumChain_is_switch _ _ [] [] Sample.dapp
            (Sample.started JNull) _).
  reflexivity.
Defined.

(** Version 1 and version 4 of typed-data signing. *)
Lemma signTypedData_v1_is_v4 :
  routeSafeRPCRequest "eth_signTypedData_v1" [JStr "0xa11ce"; JStr "{}"]
    Sample.dapp (Sample.started JNull)
  = routeSafeRPCRequest "eth_signTypedData_v4" [JStr "0xa11ce"; JStr "{}"]
      Sample.dapp (Sample.started JNull).
Proof.
  refine (signTypedData_versions_agree "eth_signTypedData_v1"
            "eth_signTypedData_v4" [JStr "0xa11ce"; JStr "{}"] Sample.dapp
            (Sample.started JNull) _ _); by repeat constructor.
Defined.
